(** * VaaS registration hook: the REST client of [vaas/client.go]

    A shallow embedding of the client and the properties of its
    operations.  The remote API, the URL parser and the JSON codec are the
    environment of the client: they are parameters of the development, and
    every theorem holds for all of them. *)

From stdpp Require Import base option list strings pretty gmap sorting.

Open Scope Z_scope.
Open Scope string_scope.

(** ** Package [vaas] *)

Module vaas.

(** *** Constants *)

Definition apiPrefixPath : string := "/api/v0.1".
Definition apiBackendPath : string := apiPrefixPath +:+ "/backend/".
Definition apiDcPath : string := apiPrefixPath +:+ "/dc/".
Definition apiDirectorPath : string := apiPrefixPath +:+ "/director/".

Definition contentTypeHeader : string := "Content-Type".
Definition acceptHeader : string := "Accept".
Definition preferHeader : string := "Prefer".
Definition applicationJSON : string := "application/json".

Definition StatusNotFound : Z := 404.

(** ** Errors

    The client only ever formats an error with [%s], that is, through its
    message; an error value is its message. *)

Definition error : Type := string.

(** ** Data model

    Go's [int] fields are [Z] (the client does no arithmetic on them), a
    pointer field that may be nil is an [option]. *)

Module DC.
Record t : Type := Build
  { ID : Z; Name : string; ResourceURI : string; Symbol : string }.
Definition zero : t := Build 0 "" "" "".
End DC.

Module Meta.
Record t : Type := Build
  { Limit : Z; Next : option string; Offset : Z;
    Previous : option string; TotalCount : Z }.
Definition zero : t := Build 0 None 0 None 0.
End Meta.

Module Backend.
Record t : Type := Build
  { ID : option Z;
    Address : string;
    DirectorURL : string;
    DC : DC.t;
    Port : Z;
    InheritTimeProfile : bool;
    Weight : option Z;
    Tags : list string;
    ResourceURI : string }.
Definition zero : t := Build None "" "" DC.zero 0 false None [] "".
End Backend.

Module BackendList.
Record t : Type := Build { Meta : Meta.t; Objects : list Backend.t }.
Definition zero : t := Build Meta.zero [].
End BackendList.

Module DCList.
Record t : Type := Build { Meta : Meta.t; Objects : list DC.t }.
Definition zero : t := Build Meta.zero [].
End DCList.

Module Director.
Record t : Type := Build
  { ID : Z; BackendURLs : list string; Name : string; ResourceURI : string }.
Definition zero : t := Build 0 [] "" "".
End Director.

Module DirectorList.
Record t : Type := Build { Meta : Meta.t; Objects : list Director.t }.
Definition zero : t := Build Meta.zero [].
End DirectorList.

(** ** HTTP messages

    [http.Header] and [url.Values] are both [map[string][]string].  Header
    keys are in canonical form, as the four keys the client uses are. *)

Module Header.
Definition Set_ (key value : string) (h : gmap string (list string))
  : gmap string (list string) := <[key := [value]]> h.
Definition Get (key : string) (h : gmap string (list string)) : string :=
  match h !! key with
  | Some (value :: _) => value
  | _ => ""
  end.
End Header.

Module Values.
Definition Add (key value : string) (v : gmap string (list string))
  : gmap string (list string) :=
  <[key := (default [] (v !! key) ++ [value])%list]> v.
(** [carries v key value]: the query has the parameter [key=value]. *)
Definition carries (v : gmap string (list string)) (key value : string)
  : Prop := exists values, v !! key = Some values /\ value ∈ values.
End Values.

(** The query of a URL is kept as the [url.Values] it stands for:
    [URL.Query()] and [Values.Encode()] of net/url translate between this
    map and its text, and the client only ever goes through the two of
    them.  [Rest] is everything of the URL but the query. *)
Record Url : Type := mkUrl
  { Rest : string; RawQuery : gmap string (list string) }.

Definition Query (u : Url) : gmap string (list string) := RawQuery u.
Definition Encode (v : gmap string (list string))
  : gmap string (list string) := v.

Record Request : Type := mkRequest
  { Method : string;
    URL : Url;
    ReqHeader : gmap string (list string);
    ReqBody : string }.

Definition withHeader (r : Request) (h : gmap string (list string)) : Request :=
  mkRequest (Method r) (URL r) h (ReqBody r).
Definition withRawQuery (r : Request) (q : gmap string (list string))
  : Request :=
  mkRequest (Method r) (mkUrl (Rest (URL r)) q) (ReqHeader r) (ReqBody r).

(** What [ioutil.ReadAll] gives on the body of a response. *)
Inductive Body : Type :=
| Readable (content : string)
| Unreadable (err : error).

Definition ReadAll (b : Body) : string + error :=
  match b with
  | Readable content => inl content
  | Unreadable err => inr err
  end.

Record Response : Type := mkResponse
  { StatusCode : Z;
    Header : gmap string (list string);
    RespBody : Body }.

(** The two ways [http.Client.Do] returns: a response and no error, or an
    error, with which a response may come along. *)
Inductive RoundTrip : Type :=
| Answered (response : Response)
| Failed (response : option Response) (err : error).

(** The JSON decoder at the types the client decodes into.  It updates the
    target in place and may do so even when it reports an error. *)
Class Unmarshal (T : Type) : Type :=
  json_Unmarshal : string -> T -> T * option error.

(** ** Computations of the client

    A call runs against the remote API, whose state it may change, and
    either returns or panics.  [sent] records the requests handed to the
    transport, oldest first.  What the client writes to its log has no
    part in what it returns and is left out. *)

Inductive outcome (A : Type) : Type :=
| Returned (a : A)
| Panicked (reason : string).
Arguments Returned {A} a.
Arguments Panicked {A} reason.

Record Net (Server : Type) : Type := mkNet
  { remote : Server; sent : list Request }.
Arguments mkNet {Server} remote sent.
Arguments remote {Server} n.
Arguments sent {Server} n.

Definition M (Server A : Type) : Type := Net Server -> outcome A * Net Server.

Definition ret {Server A} (a : A) : M Server A := fun net => (Returned a, net).
Definition panic {Server A} (reason : string) : M Server A :=
  fun net => (Panicked reason, net).
Definition bind {Server A B} (m : M Server A) (k : A -> M Server B)
  : M Server B :=
  fun net =>
    match m net with
    | (Returned a, net') => k a net'
    | (Panicked reason, net') => (Panicked reason, net')
    end.

Declare Scope client_scope.
Delimit Scope client_scope with client.
Notation "'let*' x := m 'in' k" := (bind m (fun x => k))
  (at level 10, x pattern, m at level 100, k at level 200) : client_scope.
Open Scope client_scope.

(** The message of the panic on reading through a nil pointer. *)
Definition nilDereference : string :=
  "invalid memory address or nil pointer dereference".

(** ** The client *)

(** [defaultClient]; its [httpClient] is the transport [Do] below. *)
Record defaultClient : Type := mkClient
  { username : string; apiKey : string; host : string }.

Definition NewClient (hostname username apiKey : string) : defaultClient :=
  mkClient username apiKey hostname.

(** The loops of the three lookups: the first element that matches. *)

Fixpoint scanDirectors (name : string) (objects : list Director.t)
  : option Director.t :=
  match objects with
  | [] => None
  | director :: rest =>
      if String.eqb (Director.Name director) name then Some director
      else scanDirectors name rest
  end.

Fixpoint scanDCs (name : string) (objects : list DC.t) : option DC.t :=
  match objects with
  | [] => None
  | dc :: rest =>
      if String.eqb (DC.Symbol dc) name then Some dc
      else scanDCs name rest
  end.

Fixpoint scanBackends (address : string) (port : Z)
  (objects : list Backend.t) : option Backend.t :=
  match objects with
  | [] => None
  | backend :: rest =>
      if String.eqb (Backend.Address backend) address
         && (Backend.Port backend =? port)%Z
      then Some backend
      else scanBackends address port rest
  end.

Section Client.

Context {Server : Type}.

(** The remote API behind [http.Client.Do]. *)
Variable serve : Request -> Server -> RoundTrip * Server.
(** [url.Parse], as [http.NewRequest] calls it, and [URL.String]. *)
Variable url_Parse : string -> Url + error.
Variable url_String : Url -> string.
(** [json.Marshal] of a request body: nil or a [*Backend]. *)
Variable json_Marshal : option Backend.t -> string + error.
Context {unmarshalBackend : Unmarshal Backend.t}.
Context {unmarshalBackendList : Unmarshal BackendList.t}.
Context {unmarshalDCList : Unmarshal DCList.t}.
Context {unmarshalDirectorList : Unmarshal DirectorList.t}.

Variable c : defaultClient.

(** [c.httpClient.Do(request)]. *)
Definition Do (request : Request) : M Server RoundTrip :=
  fun net =>
    let (trip, remote') := serve request (remote net) in
    (Returned trip, mkNet remote' (sent net ++ [request])%list).

(** [http.NewRequest]; the client passes it GET, POST and DELETE only, so
    the URL is all that can be refused. *)
Definition http_NewRequest (method url body : string) : Request + error :=
  match url_Parse url with
  | inr err => inr err
  | inl u => inl (mkRequest method u ∅ body)
  end.

Definition newRequest (method url : string) (body : option Backend.t)
  : Request + error :=
  match json_Marshal body with
  | inr err => inr err
  | inl jsonBody =>
      match http_NewRequest method url jsonBody with
      | inr err => inr err
      | inl request =>
          let request :=
            withHeader request
              (Header.Set_ acceptHeader applicationJSON (ReqHeader request)) in
          let request :=
            withHeader request
              (Header.Set_ contentTypeHeader applicationJSON
                 (ReqHeader request)) in
          let query := Query (URL request) in
          let query := Values.Add "username" (username c) query in
          let query := Values.Add "api_key" (apiKey c) query in
          let request := withRawQuery request (Encode query) in
          inl request
      end
  end.

(** The message of the error [do] makes of a response that is not 2xx. *)
Definition apiError (request : Request) (response : Response) : error :=
  let message :=
    match ReadAll (RespBody response) with
    | inr err => "Additional error reading raw response: " +:+ err
    | inl rawResponse => rawResponse
    end in
  "VaaS API error at " +:+ url_String (URL request) +:+ " (HTTP "
    +:+ pretty (StatusCode response) +:+ "): " +:+ message.

Definition do (request : Request) : M Server (option Response * option error) :=
  let* trip := Do request in
  match trip with
  | Failed response err => ret (response, Some err)
  | Answered response =>
      if (StatusCode response <? 200)%Z || (StatusCode response >? 299)%Z
      then ret (Some response, Some (apiError request response))
      else ret (Some response, None)
  end.

(** [doRequest(request, v)]: [v] is [None] for a nil target; the target
    as the call leaves it is returned next to the results. *)
Definition doRequest {T : Type} {unmarshal : Unmarshal T}
  (request : Request) (v : option T)
  : M Server (option Response * option error * option T) :=
  let* (response, err) := do request in
  match err with
  | Some err => ret (response, Some err, v)
  | None =>
      match response with
      | None => panic nilDereference
      | Some response' =>
          match ReadAll (RespBody response') with
          | inr err => ret (response, Some err, v)
          | inl rawResponse =>
              match v with
              | None => ret (response, None, None)
              | Some target =>
                  let (target', err) := json_Unmarshal rawResponse target in
                  ret (response, err, Some target')
              end
          end
      end
  end.

Definition FindDirector (name : string) : M Server (Director.t + error) :=
  match newRequest "GET" (host c +:+ apiDirectorPath) None with
  | inr err => ret (inr err)
  | inl request =>
      let query := Query (URL request) in
      let query := Values.Add "name" name query in
      let request := withRawQuery request (Encode query) in
      let* (_, err, decoded) :=
        doRequest request (Some DirectorList.zero) in
      match err with
      | Some err => ret (inr err)
      | None =>
          let directorList := default DirectorList.zero decoded in
          match scanDirectors name (DirectorList.Objects directorList) with
          | Some director => ret (inl director)
          | None => ret (inr ("no Director with name " +:+ name +:+ " found"))
          end
      end
  end.

Definition FindDirectorID (name : string) : M Server (Z + error) :=
  let* found := FindDirector name in
  match found with
  | inr err => ret (inr ("cannot determine director ID: " +:+ err))
  | inl director => ret (inl (Director.ID director))
  end.

Definition FindBackend (director : Director.t) (address : string) (port : Z)
  : M Server (Backend.t + error) :=
  match newRequest "GET" (host c +:+ apiBackendPath) None with
  | inr err => ret (inr ("could not create backend list request: " +:+ err))
  | inl request =>
      let query := Query (URL request) in
      let query := Values.Add "address" address query in
      let query := Values.Add "director" (pretty (Director.ID director)) query in
      let query := Values.Add "port" (pretty port) query in
      let request := withRawQuery request (Encode query) in
      let* (_, err, decoded) :=
        doRequest request (Some BackendList.zero) in
      match err with
      | Some err => ret (inr ("backend list fetch failed: " +:+ err))
      | None =>
          let backendList := default BackendList.zero decoded in
          match scanBackends address port (BackendList.Objects backendList) with
          | Some backend => ret (inl backend)
          | None => ret (inr "backend not found")
          end
      end
  end.

(** [AddBackend(backend, director)]: next to its results, the [Backend]
    the caller's pointer refers to once the call is over. *)
Definition AddBackend (backend : Backend.t) (director : Director.t)
  : M Server (Backend.t * (string + error)) :=
  match newRequest "POST" (host c +:+ apiBackendPath) (Some backend) with
  | inr err => ret (backend, inr err)
  | inl request =>
      let* (response, err, decoded) := doRequest request (Some backend) in
      let backend := default backend decoded in
      match err with
      | Some err =>
          let* found :=
            FindBackend director (Backend.Address backend)
              (Backend.Port backend) in
          match found with
          | inr newErr => ret (backend, inr err)
          | inl backend' => ret (backend, inl (Backend.ResourceURI backend'))
          end
      | None =>
          match response with
          | None => panic nilDereference
          | Some response =>
              ret (backend, inl (Header.Get "Location" (Header response)))
          end
      end
  end.

Definition DeleteBackend (id : Z) : M Server (option error) :=
  match
    newRequest "DELETE" (host c +:+ apiBackendPath +:+ pretty id +:+ "/") None
  with
  | inr err => ret (Some err)
  | inl request =>
      let request :=
        withHeader request
          (Header.Set_ preferHeader "respond-async" (ReqHeader request)) in
      let* (response, err) := do request in
      match response with
      | Some response' =>
          if (StatusCode response' =? StatusNotFound)%Z then ret None
          else ret err
      | None => ret err
      end
  end.

Definition GetDC (name : string) : M Server (DC.t + error) :=
  match newRequest "GET" (host c +:+ apiDcPath) None with
  | inr err => ret (inr err)
  | inl request =>
      let* (_, err, decoded) := doRequest request (Some DCList.zero) in
      match err with
      | Some err => ret (inr err)
      | None =>
          let dcList := default DCList.zero decoded in
          match scanDCs name (DCList.Objects dcList) with
          | Some dc => ret (inl dc)
          | None => ret (inr ("no DC with name " +:+ name +:+ " found"))
          end
      end
  end.

Definition FindBackendID (director address : string) (port : Z)
  : M Server (Z + error) :=
  let* directorFound := FindDirector director in
  match directorFound with
  | inr err => ret (inr ("cannot determine director ID: " +:+ err))
  | inl directorFound =>
      let* backend := FindBackend directorFound address port in
      match backend with
      | inr err => ret (inr "backend not found")
      | inl backend =>
          match Backend.ID backend with
          | None => panic nilDereference
          | Some id => ret (inl id)
          end
      end
  end.

End Client.

End vaas.

Import vaas.

(** ** Vocabulary of the statements *)

(** The request [FindDirector] sends, from what [newRequest] built. *)
Definition directorListRequest (name : string) (request : Request) : Request :=
  withRawQuery request (Encode (Values.Add "name" name (Query (URL request)))).

(** The request [FindBackend] sends, from what [newRequest] built. *)
Definition backendListRequest (director : Director.t) (address : string)
  (port : Z) (request : Request) : Request :=
  withRawQuery request
    (Encode
       (Values.Add "port" (pretty port)
          (Values.Add "director" (pretty (Director.ID director))
             (Values.Add "address" address (Query (URL request)))))).

(** The request [DeleteBackend] sends, from what [newRequest] built. *)
Definition deleteRequest (request : Request) : Request :=
  withHeader request
    (Header.Set_ preferHeader "respond-async" (ReqHeader request)).

(** A status code of the 2xx class. *)
Definition is2xx (status : Z) : Prop := 200 <= status <= 299.

(** [contains s sub]: [sub] occurs in [s]. *)
Definition contains (s sub : string) : Prop :=
  exists before after, s = before +:+ sub +:+ after.

(** A request that carries the credentials of the client in its query. *)
Definition authenticated (c : defaultClient) (request : Request) : Prop :=
  Values.carries (Query (URL request)) "username" (username c)
  /\ Values.carries (Query (URL request)) "api_key" (apiKey c).

(** The calls of the [Client] interface. *)
Inductive Call : Type :=
| CallFindDirector (name : string)
| CallFindDirectorID (name : string)
| CallAddBackend (backend : Backend.t) (director : Director.t)
| CallDeleteBackend (id : Z)
| CallGetDC (name : string)
| CallFindBackend (director : Director.t) (address : string) (port : Z)
| CallFindBackendID (director address : string) (port : Z).

Section Calls.

Context {Server : Type}.
Variable serve : Request -> Server -> RoundTrip * Server.
Variable url_Parse : string -> Url + error.
Variable url_String : Url -> string.
Variable json_Marshal : option Backend.t -> string + error.
Context {unmarshalBackend : Unmarshal Backend.t}.
Context {unmarshalBackendList : Unmarshal BackendList.t}.
Context {unmarshalDCList : Unmarshal DCList.t}.
Context {unmarshalDirectorList : Unmarshal DirectorList.t}.
Variable c : defaultClient.

(** The network once a call is over, however it ended. *)
Definition after (call : Call) (net : Net Server) : Net Server :=
  match call with
  | CallFindDirector name =>
      snd (FindDirector serve url_Parse url_String json_Marshal c name net)
  | CallFindDirectorID name =>
      snd (FindDirectorID serve url_Parse url_String json_Marshal c name net)
  | CallAddBackend backend director =>
      snd (AddBackend serve url_Parse url_String json_Marshal c
             backend director net)
  | CallDeleteBackend id =>
      snd (DeleteBackend serve url_Parse url_String json_Marshal c id net)
  | CallGetDC name =>
      snd (GetDC serve url_Parse url_String json_Marshal c name net)
  | CallFindBackend director address port =>
      snd (FindBackend serve url_Parse url_String json_Marshal c
             director address port net)
  | CallFindBackendID director address port =>
      snd (FindBackendID serve url_Parse url_String json_Marshal c
             director address port net)
  end.

End Calls.

(** ** A scripted remote, for running the client on examples *)

Module Fixture.

(** The remote answers from a script, one entry per request. *)
Definition replay (request : Request) (script : list RoundTrip)
  : RoundTrip * list RoundTrip :=
  match script with
  | [] => (Failed None "connection refused", [])
  | trip :: rest => (trip, rest)
  end.

Definition parse (url : string) : Url + error := inl (mkUrl url ∅).

(** The query as text, keys in order, the way [Values.Encode] writes it
    (the values of the examples need no escaping). *)
Definition pairs (query : gmap string (list string)) : list string :=
  mjoin
    ((fun '(key, values) => (fun value => key +:+ "=" +:+ value) <$> values)
       <$> merge_sort (fun a b => String.le a.1 b.1) (map_to_list query)).

Definition render (u : Url) : string :=
  match pairs (RawQuery u) with
  | [] => Rest u
  | texts => Rest u +:+ "?" +:+ String.concat "&" texts
  end.

Definition marshal (body : option Backend.t) : string + error :=
  match body with
  | None => inl "null"
  | Some backend => inl ("backend " +:+ Backend.Address backend)
  end.

(** A decoder that knows the bodies of a table and refuses the rest. *)
Fixpoint decodeWith {T : Type} (table : list (string * T)) (raw : string)
  (target : T) : T * option error :=
  match table with
  | [] => (target, Some "invalid character")
  | (text, value) :: rest =>
      if String.eqb text raw then (value, None)
      else decodeWith rest raw target
  end.

Definition client : defaultClient :=
  NewClient "http://vaas.local" "hook" "s3cret".

Definition varnish : Director.t :=
  Director.Build 7 [] "varnish" "/api/v0.1/director/7/".
Definition varnishCanary : Director.t :=
  Director.Build 8 [] "varnish-canary" "/api/v0.1/director/8/".

Definition web8080 : Backend.t :=
  Backend.Build (Some 42) "10.0.0.5" "/api/v0.1/director/7/" DC.zero 8080
    false None [] "/api/v0.1/backend/42/".
Definition web9090 : Backend.t :=
  Backend.Build (Some 43) "10.0.0.5" "/api/v0.1/director/7/" DC.zero 9090
    false None [] "/api/v0.1/backend/43/".
Definition anonymous8080 : Backend.t :=
  Backend.Build None "10.0.0.5" "/api/v0.1/director/7/" DC.zero 8080
    false None [] "".
Definition fresh : Backend.t :=
  Backend.Build None "10.0.0.5" "/api/v0.1/director/7/" DC.zero 8080
    false None [] "".

(** A first page of directors with more pages announced. *)
Definition canaryPage : DirectorList.t :=
  DirectorList.Build
    (Meta.Build 1 (Some "/api/v0.1/director/?offset=1") 0 None 2)
    [varnishCanary].
Definition directorPage : DirectorList.t :=
  DirectorList.Build Meta.zero [varnishCanary; varnish].

Definition decodeBackend : Unmarshal Backend.t :=
  decodeWith [("created 42", web8080)].
Definition decodeBackendList : Unmarshal BackendList.t :=
  decodeWith
    [("backends 9090 8080", BackendList.Build Meta.zero [web9090; web8080]);
     ("backends 9090", BackendList.Build Meta.zero [web9090]);
     ("backends anonymous", BackendList.Build Meta.zero [anonymous8080])].
Definition decodeDCList : Unmarshal DCList.t := decodeWith [].
Definition decodeDirectorList : Unmarshal DirectorList.t :=
  decodeWith [("directors canary", canaryPage);
              ("directors canary varnish", directorPage)].

Definition ok (body : string) : RoundTrip :=
  Answered (mkResponse 200 ∅ (Readable body)).
Definition created (location body : string) : RoundTrip :=
  Answered (mkResponse 201 {[ "Location" := [location] ]} (Readable body)).
Definition refused (status : Z) (body : string) : RoundTrip :=
  Answered (mkResponse status ∅ (Readable body)).

(** A request as [newRequest] leaves it, for running [do] alone. *)
Definition probe : Request :=
  mkRequest "GET"
    (mkUrl "http://vaas.local/api/v0.1/dc/"
       (Values.Add "api_key" "s3cret" (Values.Add "username" "hook" ∅)))
    ∅ "null".

Definition start (script : list RoundTrip) : Net (list RoundTrip) :=
  mkNet script [].

End Fixture.

(** ** Vocabulary of the statements on the traffic of a call *)

(** The request a one-request call sends: what [newRequest] built, once
    the call has completed it; none when [newRequest] failed. *)
Definition lookupTrace (built : Request + error)
  (complete : Request -> Request) : list Request :=
  match built with
  | inl request => [complete request]
  | inr _ => []
  end.

(** A request that announces and accepts JSON. *)
Definition speaksJSON (request : Request) : Prop :=
  Header.Get "Accept" (ReqHeader request) = "application/json"
  /\ Header.Get "Content-Type" (ReqHeader request) = "application/json".

(** The requests a call may make, in order: method, URL text and body. *)
Definition endpoints (c : defaultClient) (call : Call)
  : list (string * string * option Backend.t) :=
  match call with
  | CallFindDirector _ | CallFindDirectorID _ =>
      [("GET", host c +:+ "/api/v0.1/director/", None)]
  | CallAddBackend backend _ =>
      [("POST", host c +:+ "/api/v0.1/backend/", Some backend);
       ("GET", host c +:+ "/api/v0.1/backend/", None)]
  | CallDeleteBackend id =>
      [("DELETE", host c +:+ "/api/v0.1/backend/" +:+ pretty id +:+ "/", None)]
  | CallGetDC _ => [("GET", host c +:+ "/api/v0.1/dc/", None)]
  | CallFindBackend _ _ _ => [("GET", host c +:+ "/api/v0.1/backend/", None)]
  | CallFindBackendID _ _ _ =>
      [("GET", host c +:+ "/api/v0.1/director/", None);
       ("GET", host c +:+ "/api/v0.1/backend/", None)]
  end.

(** [request] has the method of [endpoint], the URL its text parses to
    (the query apart) and the encoding of its body. *)
Definition addressed (url_Parse : string -> Url + error)
  (json_Marshal : option Backend.t -> string + error)
  (request : Request) (endpoint : string * string * option Backend.t)
  : Prop :=
  Method request = endpoint.1.1
  /\ (exists u, url_Parse endpoint.1.2 = inl u /\ Rest (URL request) = Rest u)
  /\ json_Marshal endpoint.2 = inl (ReqBody request).

(** The [Prefer] header a call puts on its requests, if any. *)
Definition preference (call : Call) : option (list string) :=
  match call with
  | CallDeleteBackend _ => Some ["respond-async"]
  | _ => None
  end.

(** The requests a call hands to the transport, oldest first.  A lookup
    sends its one request if [newRequest] built it.  [AddBackend] and
    [FindBackendID] send a first request and then, or not, the backend
    listing that [FindBackend] sends, for some address and port, or some
    director. *)
Definition traffic (url_Parse : string -> Url + error)
  (json_Marshal : option Backend.t -> string + error) (c : defaultClient)
  (call : Call) (requests : list Request) : Prop :=
  let built := newRequest url_Parse json_Marshal c in
  let directors := built "GET" (host c +:+ apiDirectorPath) None in
  let backends := built "GET" (host c +:+ apiBackendPath) None in
  match call with
  | CallFindDirector name | CallFindDirectorID name =>
      requests = lookupTrace directors (directorListRequest name)
  | CallGetDC _ =>
      requests = lookupTrace (built "GET" (host c +:+ apiDcPath) None) id
  | CallFindBackend director address port =>
      requests =
        lookupTrace backends (backendListRequest director address port)
  | CallDeleteBackend id =>
      requests =
        lookupTrace
          (built "DELETE" (host c +:+ apiBackendPath +:+ pretty id +:+ "/")
             None)
          deleteRequest
  | CallAddBackend backend director =>
      let first := built "POST" (host c +:+ apiBackendPath) (Some backend) in
      requests = lookupTrace first id
      \/ exists address port,
           (exists request, first = inl request)
           /\ requests =
                (lookupTrace first id
                 ++ lookupTrace backends
                      (backendListRequest director address port))%list
  | CallFindBackendID name address port =>
      requests = lookupTrace directors (directorListRequest name)
      \/ exists director,
           (exists request, directors = inl request)
           /\ requests =
                (lookupTrace directors (directorListRequest name)
                 ++ lookupTrace backends
                      (backendListRequest director address port))%list
  end.

(** ** More scripted parts, for the examples on the rest of the client *)

Module Scenario.

Definition warsaw : DC.t := DC.Build 3 "Warsaw" "/api/v0.1/dc/3/" "WAW".
Definition krakow : DC.t := DC.Build 4 "Krakow" "/api/v0.1/dc/4/" "KRK".
(** A datacenter whose name, not its symbol, reads WAW. *)
Definition decoy : DC.t := DC.Build 5 "WAW" "/api/v0.1/dc/5/" "GDN".

Definition dcPage : DCList.t :=
  DCList.Build Meta.zero [decoy; krakow; warsaw].

Definition decodeDCs : Unmarshal DCList.t :=
  Fixture.decodeWith [("dcs", dcPage)].

(** Two backends at the asked address and port: the listing is not
    required to be free of duplicates. *)
Definition twin : Backend.t :=
  Backend.Build (Some 44) "10.0.0.5" "/api/v0.1/director/7/" DC.zero 8080
    false None [] "/api/v0.1/backend/44/".

Definition decodeBackends : Unmarshal BackendList.t :=
  Fixture.decodeWith
    [("backends 9090 8080 twin",
      BackendList.Build Meta.zero
        [Fixture.web9090; Fixture.web8080; twin]);
     ("backends 9090", BackendList.Build Meta.zero [Fixture.web9090])].

(** A decoder that stops half way: it has written the port of the body
    into the target when it reports the end of the input. *)
Definition moved (target : Backend.t) : Backend.t :=
  Backend.Build (Backend.ID target) (Backend.Address target)
    (Backend.DirectorURL target) (Backend.DC target) 9090
    (Backend.InheritTimeProfile target) (Backend.Weight target)
    (Backend.Tags target) (Backend.ResourceURI target).

Definition decodeHalf : Unmarshal Backend.t :=
  fun raw target =>
    if String.eqb raw "port 9090 and then" then
      (moved target, Some "unexpected end of JSON input")
    else (target, Some "invalid character").


(** A URL parser for a host that has a [username] parameter of its own. *)
Definition parseWithUser (url : string) : Url + error :=
  inl (mkUrl url {[ "username" := ["intruder"] ]}).

(** An answer without a [Location] header. *)
Definition createdNowhere (body : string) : RoundTrip :=
  Answered (mkResponse 201 ∅ (Readable body)).

End Scenario.

(** ** Properties *)

Lemma append_assoc (s1 s2 s3 : string) :
  (s1 +:+ s2) +:+ s3 = s1 +:+ s2 +:+ s3.
Proof.
  induction s1 as [|a s1 IH]; [done|].
  change (String a ((s1 +:+ s2) +:+ s3) = String a (s1 +:+ s2 +:+ s3)).
  by rewrite IH.
Qed.

Lemma append_nil_r (s : string) : s +:+ "" = s.
Proof.
  induction s as [|a s IH]; [done|].
  change (String a (s +:+ "") = String a s). by rewrite IH.
Qed.

Lemma contains_refl (s : string) : contains s s.
Proof. exists "", "". by rewrite append_nil_r. Qed.

Lemma contains_append_l (s t sub : string) :
  contains s sub -> contains (s +:+ t) sub.
Proof.
  intros (before & after & ->). exists before, (after +:+ t).
  by rewrite !append_assoc.
Qed.

Lemma contains_append_r (s t sub : string) :
  contains t sub -> contains (s +:+ t) sub.
Proof.
  intros (before & after & ->). exists (s +:+ before), after.
  by rewrite !append_assoc.
Qed.

Lemma outside_2xx (status : Z) :
  (status <? 200)%Z || (status >? 299)%Z = true <-> ~ is2xx status.
Proof. unfold is2xx. rewrite orb_true_iff, Z.ltb_lt, Z.gtb_gt. lia. Qed.

Lemma inside_2xx (status : Z) :
  (status <? 200)%Z || (status >? 299)%Z = false <-> is2xx status.
Proof.
  unfold is2xx. rewrite orb_false_iff, Z.ltb_ge, Z.gtb_ltb, Z.ltb_ge. lia.
Qed.

Lemma carries_Add_same (v : gmap string (list string)) (key value : string) :
  Values.carries (Values.Add key value v) key value.
Proof.
  unfold Values.carries, Values.Add. eexists. split.
  - apply lookup_insert_eq.
  - apply elem_of_app. right. apply list_elem_of_singleton. done.
Qed.

Lemma carries_Add (v : gmap string (list string))
  (key value key' value' : string) :
  Values.carries v key value ->
  Values.carries (Values.Add key' value' v) key value.
Proof.
  intros (values & Hlook & Hin). unfold Values.carries, Values.Add.
  destruct (decide (key' = key)) as [->|Hne].
  - eexists. split; [apply lookup_insert_eq|].
    rewrite Hlook. simpl. apply elem_of_app. by left.
  - exists values. split; [|done]. by rewrite lookup_insert_ne.
Qed.

Lemma scanDirectors_Some (name : string) (objects : list Director.t)
  (director : Director.t) :
  scanDirectors name objects = Some director ->
  Director.Name director = name /\ director ∈ objects.
Proof.
  induction objects as [|d rest IH]; simpl; [done|].
  destruct (String.eqb (Director.Name d) name) eqn:Heq.
  - intros [= <-]. apply String.eqb_eq in Heq. split; [done|]. left.
  - intros H. destruct (IH H) as [? ?]. split; [done|]. by right.
Qed.

Lemma scanDirectors_None (name : string) (objects : list Director.t) :
  (forall director, director ∈ objects -> Director.Name director <> name) ->
  scanDirectors name objects = None.
Proof.
  induction objects as [|d rest IH]; simpl; intros Hno; [done|].
  destruct (String.eqb (Director.Name d) name) eqn:Heq.
  - apply String.eqb_eq in Heq. destruct (Hno d); [left | done].
  - apply IH. intros director Hin. apply Hno. by right.
Qed.

Lemma scanBackends_Some (address : string) (port : Z)
  (objects : list Backend.t) (backend : Backend.t) :
  scanBackends address port objects = Some backend ->
  Backend.Address backend = address /\ Backend.Port backend = port
  /\ backend ∈ objects.
Proof.
  induction objects as [|b rest IH]; simpl; [done|].
  destruct (String.eqb (Backend.Address b) address
            && (Backend.Port b =? port)%Z) eqn:Heq.
  - intros [= <-]. apply andb_true_iff in Heq as [Ha Hp].
    apply String.eqb_eq in Ha. apply Z.eqb_eq in Hp. repeat split; [done..|left].
  - intros H. destruct (IH H) as (? & ? & ?). repeat split; [done..|by right].
Qed.

Lemma scanBackends_None (address : string) (port : Z)
  (objects : list Backend.t) :
  (forall backend, backend ∈ objects ->
     ~ (Backend.Address backend = address /\ Backend.Port backend = port)) ->
  scanBackends address port objects = None.
Proof.
  induction objects as [|b rest IH]; simpl; intros Hno; [done|].
  destruct (String.eqb (Backend.Address b) address
            && (Backend.Port b =? port)%Z) eqn:Heq.
  - apply andb_true_iff in Heq as [Ha Hp].
    apply String.eqb_eq in Ha. apply Z.eqb_eq in Hp.
    destruct (Hno b); [left | done].
  - apply IH. intros backend Hin. apply Hno. by right.
Qed.

Section Facts.

Context {Server : Type}.
Variable serve : Request -> Server -> RoundTrip * Server.
Variable url_Parse : string -> Url + error.
Variable url_String : Url -> string.
Variable json_Marshal : option Backend.t -> string + error.
Context {unmarshalBackend : Unmarshal Backend.t}.
Context {unmarshalBackendList : Unmarshal BackendList.t}.
Context {unmarshalDCList : Unmarshal DCList.t}.
Context {unmarshalDirectorList : Unmarshal DirectorList.t}.
Variable c : defaultClient.

Local Abbreviation newRequest := (newRequest url_Parse json_Marshal c).
Local Abbreviation apiError := (apiError url_String).
Local Abbreviation do := (do serve url_String).
Local Abbreviation doRequest := (doRequest serve url_String).
Local Abbreviation FindDirector :=
  (FindDirector serve url_Parse url_String json_Marshal c).
Local Abbreviation FindBackend :=
  (FindBackend serve url_Parse url_String json_Marshal c).
Local Abbreviation AddBackend :=
  (AddBackend serve url_Parse url_String json_Marshal c).
Local Abbreviation DeleteBackend :=
  (DeleteBackend serve url_Parse url_String json_Marshal c).
Local Abbreviation GetDC := (GetDC serve url_Parse url_String json_Marshal c).
Local Abbreviation FindBackendID :=
  (FindBackendID serve url_Parse url_String json_Marshal c).
Local Abbreviation FindDirectorID :=
  (FindDirectorID serve url_Parse url_String json_Marshal c).

(** The network after one round trip. *)
Local Abbreviation told net remote' request :=
  (mkNet remote' (sent net ++ [request])%list).

Lemma do_Answered (request : Request) (net : Net Server)
  (response : Response) (remote' : Server) :
  serve request (remote net) = (Answered response, remote') ->
  do request net =
    (Returned
       (Some response,
        if (StatusCode response <? 200)%Z || (StatusCode response >? 299)%Z
        then Some (apiError request response) else None),
     told net remote' request).
Proof.
  intros Hserve. unfold vaas.do, bind, Do. rewrite Hserve.
  by destruct (_ || _).
Qed.

Lemma do_Failed (request : Request) (net : Net Server)
  (response : option Response) (err : error) (remote' : Server) :
  serve request (remote net) = (Failed response err, remote') ->
  do request net = (Returned (response, Some err), told net remote' request).
Proof. intros Hserve. unfold vaas.do, bind, Do. by rewrite Hserve. Qed.

(** [do] hands exactly its request to the transport, and never panics. *)
Lemma do_sent (request : Request) (net : Net Server) :
  exists result remote',
    do request net = (Returned result, told net remote' request).
Proof.
  destruct (serve request (remote net)) as [[response|response err] remote']
    eqn:Hserve.
  - eexists _, remote'. by apply do_Answered.
  - eexists _, remote'. by apply do_Failed.
Qed.

Lemma doRequest_refused {T : Type} {unmarshal : Unmarshal T}
  (request : Request) (v : option T) (net : Net Server)
  (response : Response) (remote' : Server) :
  serve request (remote net) = (Answered response, remote') ->
  ~ is2xx (StatusCode response) ->
  doRequest request v net =
    (Returned (Some response, Some (apiError request response), v),
     told net remote' request).
Proof.
  intros Hserve Hout. unfold vaas.doRequest, bind.
  rewrite (do_Answered _ _ _ _ Hserve).
  apply outside_2xx in Hout. by rewrite Hout.
Qed.

Lemma doRequest_decoded {T : Type} {unmarshal : Unmarshal T}
  (request : Request) (target : T) (net : Net Server)
  (response : Response) (remote' : Server) (rawResponse : string) :
  serve request (remote net) = (Answered response, remote') ->
  is2xx (StatusCode response) ->
  RespBody response = Readable rawResponse ->
  doRequest request (Some target) net =
    (Returned
       (Some response, snd (json_Unmarshal rawResponse target),
        Some (fst (json_Unmarshal rawResponse target))),
     told net remote' request).
Proof.
  intros Hserve Hin Hbody. unfold vaas.doRequest, bind.
  rewrite (do_Answered _ _ _ _ Hserve).
  apply inside_2xx in Hin. rewrite Hin. simpl. rewrite Hbody. simpl.
  by destruct (json_Unmarshal rawResponse target).
Qed.

(** [doRequest] makes one round trip; when it reports no error there is a
    response, and a target that was given is still there. *)
Lemma doRequest_sent {T : Type} {unmarshal : Unmarshal T}
  (request : Request) (target : T) (net : Net Server) :
  exists response err target' remote',
    doRequest request (Some target) net =
      (Returned (response, err, Some target'), told net remote' request)
    /\ (err = None -> is_Some response).
Proof.
  unfold vaas.doRequest, bind.
  destruct (serve request (remote net)) as [[response|response err] remote']
    eqn:Hserve.
  - rewrite (do_Answered _ _ _ _ Hserve).
    destruct (_ || _); simpl.
    + eexists _, _, _, remote'. split; [done|]. done.
    + destruct (RespBody response) as [raw|err]; simpl.
      * destruct (json_Unmarshal raw target) as [target' err].
        eexists _, _, _, remote'. split; [done|]. by eexists.
      * eexists _, _, _, remote'. split; [done|]. done.
  - rewrite (do_Failed _ _ _ _ _ Hserve).
    eexists _, _, _, remote'. split; [done|]. done.
Qed.


Lemma FindDirector_exact (name : string) (net net' : Net Server)
  (director : Director.t) :
  FindDirector name net = (Returned (inl director), net') ->
  Director.Name director = name.
Proof.
  unfold vaas.FindDirector.
  destruct (newRequest "GET" (host c +:+ apiDirectorPath) None)
    as [request|err]; [|done].
  unfold bind.
  destruct (doRequest _ _ net) as [[[[response err] decoded]|reason] net1];
    [|done].
  destruct err as [err|]; [done|].
  destruct (scanDirectors name _) as [found|] eqn:Hscan; [|done].
  intros [= <- _]. by apply scanDirectors_Some in Hscan as [? _].
Qed.

Lemma FindBackend_exact (director : Director.t) (address : string) (port : Z)
  (net net' : Net Server) (backend : Backend.t) :
  FindBackend director address port net = (Returned (inl backend), net') ->
  Backend.Address backend = address /\ Backend.Port backend = port.
Proof.
  unfold vaas.FindBackend.
  destruct (newRequest "GET" (host c +:+ apiBackendPath) None)
    as [request|err]; [|done].
  unfold bind.
  destruct (doRequest _ _ net) as [[[[response err] decoded]|reason] net1];
    [|done].
  destruct err as [err|]; [done|].
  destruct (scanBackends address port _) as [found|] eqn:Hscan; [|done].
  intros [= <- _]. by apply scanBackends_Some in Hscan as (? & ? & _).
Qed.

(** What [FindBackend] answers once the listing came back and decoded. *)
Lemma FindBackend_listed (director : Director.t) (address : string) (port : Z)
  (net : Net Server) (request : Request) (response : Response)
  (remote' : Server) (rawResponse : string) (page : BackendList.t) :
  newRequest "GET" (host c +:+ apiBackendPath) None = inl request ->
  serve (backendListRequest director address port request) (remote net)
    = (Answered response, remote') ->
  is2xx (StatusCode response) ->
  RespBody response = Readable rawResponse ->
  json_Unmarshal rawResponse BackendList.zero = (page, None) ->
  FindBackend director address port net =
    (Returned
       match scanBackends address port (BackendList.Objects page) with
       | Some backend => inl backend
       | None => inr "backend not found"
       end,
     told net remote' (backendListRequest director address port request)).
Proof.
  intros Hnew Hserve H2xx Hbody Hjson. unfold vaas.FindBackend.
  rewrite Hnew. unfold bind.
  fold (backendListRequest director address port request).
  rewrite (doRequest_decoded _ _ _ _ _ _ Hserve H2xx Hbody), Hjson. simpl.
  by destruct (scanBackends _ _ _).
Qed.

(** C1: when the create request is answered with a status outside 2xx and
    the lookup of the backend by director, address and port that follows
    finds a backend, [AddBackend] returns the resource locator of the
    backend found, and no error. *)
Theorem AddBackend_falls_back_to_existing (backend : Backend.t)
  (director : Director.t) (net net' : Net Server) (request : Request)
  (response : Response) (remote' : Server) (found : Backend.t) :
  newRequest "POST" (host c +:+ apiBackendPath) (Some backend) = inl request ->
  serve request (remote net) = (Answered response, remote') ->
  ~ is2xx (StatusCode response) ->
  FindBackend director (Backend.Address backend) (Backend.Port backend)
    (told net remote' request) = (Returned (inl found), net') ->
  AddBackend backend director net =
    (Returned (backend, inl (Backend.ResourceURI found)), net').
Proof.
  intros Hnew Hserve Hout Hfind. unfold vaas.AddBackend.
  rewrite Hnew. unfold bind at 1.
  rewrite (doRequest_refused _ _ _ _ _ Hserve Hout). simpl.
  unfold bind. by rewrite Hfind.
Qed.

(** C2: when the create request fails with an error and the lookup that
    follows fails too, [AddBackend] returns the error of the create
    request, not the one of the lookup. *)
Theorem AddBackend_returns_creation_error (backend : Backend.t)
  (director : Director.t) (net net1 net2 : Net Server) (request : Request)
  (response : option Response) (err newErr : error) (backend1 : Backend.t) :
  newRequest "POST" (host c +:+ apiBackendPath) (Some backend) = inl request ->
  doRequest request (Some backend) net =
    (Returned (response, Some err, Some backend1), net1) ->
  FindBackend director (Backend.Address backend1) (Backend.Port backend1) net1
    = (Returned (inr newErr), net2) ->
  AddBackend backend director net = (Returned (backend1, inr err), net2).
Proof.
  intros Hnew Hcreate Hfind. unfold vaas.AddBackend.
  rewrite Hnew. unfold bind at 1. rewrite Hcreate. simpl.
  unfold bind. by rewrite Hfind.
Qed.

(** C3: when the server answers the DELETE request of [DeleteBackend] with
    404, the call returns no error; when it answers with any other status
    outside 2xx, the call returns the API error made of that response. *)
Theorem DeleteBackend_absent_is_success (id : Z) (net : Net Server)
  (request : Request) (response : Response) (remote' : Server) :
  newRequest "DELETE" (host c +:+ apiBackendPath +:+ pretty id +:+ "/") None
    = inl request ->
  serve (deleteRequest request) (remote net) = (Answered response, remote') ->
  (StatusCode response = StatusNotFound ->
   DeleteBackend id net =
     (Returned None, told net remote' (deleteRequest request)))
  /\ (~ is2xx (StatusCode response) ->
      StatusCode response <> StatusNotFound ->
      DeleteBackend id net =
        (Returned (Some (apiError (deleteRequest request) response)),
         told net remote' (deleteRequest request))).
Proof.
  intros Hnew Hserve. unfold vaas.DeleteBackend. rewrite Hnew.
  fold (deleteRequest request). unfold bind.
  rewrite (do_Answered _ _ _ _ Hserve). split.
  - intros Heq. rewrite Heq. by destruct (_ || _).
  - intros Hout Hne. apply Z.eqb_neq in Hne. rewrite Hne.
    apply outside_2xx in Hout. by rewrite Hout.
Qed.

(** C4: when the page the server returns for the director listing has no
    director named exactly [name], [FindDirector] returns the not-found
    error after that one request, whatever the [Meta] of the page says
    about further pages. *)
Theorem FindDirector_reads_first_page_only (name : string) (net : Net Server)
  (request : Request) (response : Response) (remote' : Server)
  (rawResponse : string) (page : DirectorList.t) :
  newRequest "GET" (host c +:+ apiDirectorPath) None = inl request ->
  serve (directorListRequest name request) (remote net)
    = (Answered response, remote') ->
  is2xx (StatusCode response) ->
  RespBody response = Readable rawResponse ->
  json_Unmarshal rawResponse DirectorList.zero = (page, None) ->
  Forall (fun director => Director.Name director <> name)
    (DirectorList.Objects page) ->
  FindDirector name net =
    (Returned (inr ("no Director with name " +:+ name +:+ " found")),
     told net remote' (directorListRequest name request)).
Proof.
  intros Hnew Hserve H2xx Hbody Hjson Hnone. unfold vaas.FindDirector.
  rewrite Hnew. unfold bind. fold (directorListRequest name request).
  rewrite (doRequest_decoded _ _ _ _ _ _ Hserve H2xx Hbody), Hjson. simpl.
  rewrite scanDirectors_None; [done|].
  intros director Hin. by apply (proj1 (Forall_forall _ _) Hnone).
Qed.

(** C5: a director that [FindDirector] returns for [name] has exactly the
    name [name], and is the first of the decoded page with that name;
    directors with another name that come before it are passed over. *)
Theorem FindDirector_exact_name_only (name : string) (net : Net Server)
  (request : Request) (response : Response) (remote' : Server)
  (rawResponse : string) (page : DirectorList.t) :
  newRequest "GET" (host c +:+ apiDirectorPath) None = inl request ->
  serve (directorListRequest name request) (remote net)
    = (Answered response, remote') ->
  is2xx (StatusCode response) ->
  RespBody response = Readable rawResponse ->
  json_Unmarshal rawResponse DirectorList.zero = (page, None) ->
  (forall director net',
     FindDirector name net = (Returned (inl director), net') ->
     Director.Name director = name
     /\ exists before after,
          DirectorList.Objects page = (before ++ director :: after)%list
          /\ Forall (fun other => Director.Name other <> name) before).
Proof.
  intros Hnew Hserve H2xx Hbody Hjson director net' Hfind.
  split; [by eapply FindDirector_exact|].
  revert Hfind. unfold vaas.FindDirector.
  rewrite Hnew. unfold bind. fold (directorListRequest name request).
  rewrite (doRequest_decoded _ _ _ _ _ _ Hserve H2xx Hbody), Hjson. simpl.
  generalize (DirectorList.Objects page). intros objects.
  destruct (scanDirectors name objects) as [found|] eqn:Hscan; [|done].
  intros [= <- _]. clear -Hscan.
  induction objects as [|d rest IH]; [done|]. simpl in Hscan.
  destruct (String.eqb (Director.Name d) name) eqn:Heq.
  - injection Hscan as <-. by exists [], rest.
  - destruct (IH Hscan) as (before & after & -> & Hbefore).
    exists (d :: before), after. split; [done|].
    constructor; [|done]. by apply String.eqb_neq.
Qed.

(** C6: once the backend listing came back and decoded, a backend that
    [FindBackend] returns is an element of the list whose address and port
    both equal the ones asked for; and when no element of the list has
    both, [FindBackend] returns the error "backend not found". *)
Theorem FindBackend_filters_strictly (director : Director.t)
  (address : string) (port : Z) (net : Net Server) (request : Request)
  (response : Response) (remote' : Server) (rawResponse : string)
  (page : BackendList.t) :
  newRequest "GET" (host c +:+ apiBackendPath) None = inl request ->
  serve (backendListRequest director address port request) (remote net)
    = (Answered response, remote') ->
  is2xx (StatusCode response) ->
  RespBody response = Readable rawResponse ->
  json_Unmarshal rawResponse BackendList.zero = (page, None) ->
  (forall backend net',
     FindBackend director address port net = (Returned (inl backend), net') ->
     backend ∈ BackendList.Objects page
     /\ Backend.Address backend = address /\ Backend.Port backend = port)
  /\ (Forall (fun backend => ~ (Backend.Address backend = address
                               /\ Backend.Port backend = port))
        (BackendList.Objects page) ->
      FindBackend director address port net =
        (Returned (inr "backend not found"),
         told net remote' (backendListRequest director address port request))).
Proof.
  intros Hnew Hserve H2xx Hbody Hjson.
  rewrite (FindBackend_listed _ _ _ _ _ _ _ _ _ Hnew Hserve H2xx Hbody Hjson).
  split.
  - intros backend net'.
    destruct (scanBackends _ _ _) as [found|] eqn:Hscan; [|done].
    intros [= <- _]. by apply scanBackends_Some in Hscan as (? & ? & ?).
  - intros Hnone. rewrite scanBackends_None; [done|].
    intros backend Hin. by apply (proj1 (Forall_forall _ _) Hnone).
Qed.

Lemma newRequest_authenticated (method url : string) (body : option Backend.t)
  (request : Request) :
  newRequest method url body = inl request -> authenticated c request.
Proof.
  unfold vaas.newRequest, http_NewRequest.
  destruct (json_Marshal body) as [jsonBody|err]; [|done].
  destruct (url_Parse url) as [u|err]; [|done].
  intros [= <-]. unfold authenticated, Query, Encode. simpl. split.
  - apply carries_Add, carries_Add_same.
  - apply carries_Add_same.
Qed.

Lemma directorListRequest_authenticated (name : string) (request : Request) :
  authenticated c request -> authenticated c (directorListRequest name request).
Proof.
  unfold authenticated, directorListRequest, Query, Encode. simpl.
  intros [Huser Hkey]. split; by apply carries_Add.
Qed.

Lemma backendListRequest_authenticated (director : Director.t)
  (address : string) (port : Z) (request : Request) :
  authenticated c request ->
  authenticated c (backendListRequest director address port request).
Proof.
  unfold authenticated, backendListRequest, Query, Encode. simpl.
  intros [Huser Hkey]. split; by do 3 apply carries_Add.
Qed.

Lemma deleteRequest_authenticated (request : Request) :
  authenticated c request -> authenticated c (deleteRequest request).
Proof. by unfold authenticated, deleteRequest. Qed.

Lemma told_authenticated (requests : list Request) (request : Request) :
  Forall (authenticated c) requests ->
  authenticated c request ->
  Forall (authenticated c) (requests ++ [request]).
Proof.
  intros Hsent Hauth. apply Forall_app. split; [done|]. by constructor.
Qed.

Ltac one_round_trip request target net :=
  let Hrun := fresh "Hrun" in
  destruct (doRequest_sent request target net)
    as (? & [?|] & ? & ? & Hrun & ?);
  rewrite Hrun; simpl.

Lemma FindDirector_keeps_authenticated (name : string) (net : Net Server) :
  Forall (authenticated c) (sent net) ->
  Forall (authenticated c) (sent (snd (FindDirector name net))).
Proof.
  intros Hsent. unfold vaas.FindDirector.
  destruct (newRequest "GET" (host c +:+ apiDirectorPath) None)
    as [request|err] eqn:Hnew; [|done].
  apply newRequest_authenticated in Hnew.
  apply (directorListRequest_authenticated name) in Hnew.
  fold (directorListRequest name request). unfold bind.
  one_round_trip (directorListRequest name request) DirectorList.zero net.
  - by apply told_authenticated.
  - destruct (scanDirectors name _); by apply told_authenticated.
Qed.

Lemma FindBackend_keeps_authenticated (director : Director.t)
  (address : string) (port : Z) (net : Net Server) :
  Forall (authenticated c) (sent net) ->
  Forall (authenticated c)
    (sent (snd (FindBackend director address port net))).
Proof.
  intros Hsent. unfold vaas.FindBackend.
  destruct (newRequest "GET" (host c +:+ apiBackendPath) None)
    as [request|err] eqn:Hnew; [|done].
  apply newRequest_authenticated in Hnew.
  apply (backendListRequest_authenticated director address port) in Hnew.
  fold (backendListRequest director address port request). unfold bind.
  one_round_trip (backendListRequest director address port request)
    BackendList.zero net.
  - by apply told_authenticated.
  - destruct (scanBackends address port _); by apply told_authenticated.
Qed.

Lemma GetDC_keeps_authenticated (name : string) (net : Net Server) :
  Forall (authenticated c) (sent net) ->
  Forall (authenticated c) (sent (snd (GetDC name net))).
Proof.
  intros Hsent. unfold vaas.GetDC.
  destruct (newRequest "GET" (host c +:+ apiDcPath) None)
    as [request|err] eqn:Hnew; [|done].
  apply newRequest_authenticated in Hnew. unfold bind.
  one_round_trip request DCList.zero net.
  - by apply told_authenticated.
  - destruct (scanDCs name _); by apply told_authenticated.
Qed.

Lemma DeleteBackend_keeps_authenticated (id : Z) (net : Net Server) :
  Forall (authenticated c) (sent net) ->
  Forall (authenticated c) (sent (snd (DeleteBackend id net))).
Proof.
  intros Hsent. unfold vaas.DeleteBackend.
  destruct (newRequest "DELETE" _ None) as [request|err] eqn:Hnew; [|done].
  apply newRequest_authenticated, deleteRequest_authenticated in Hnew.
  fold (deleteRequest request). unfold bind.
  destruct (do_sent (deleteRequest request) net)
    as ([response err] & remote' & Hrun).
  rewrite Hrun.
  destruct response as [response|]; [|by apply told_authenticated].
  destruct (_ =? _)%Z; simpl; by apply told_authenticated.
Qed.

Lemma AddBackend_keeps_authenticated (backend : Backend.t)
  (director : Director.t) (net : Net Server) :
  Forall (authenticated c) (sent net) ->
  Forall (authenticated c) (sent (snd (AddBackend backend director net))).
Proof.
  intros Hsent. unfold vaas.AddBackend.
  destruct (newRequest "POST" (host c +:+ apiBackendPath) (Some backend))
    as [request|err] eqn:Hnew; [|done].
  apply newRequest_authenticated in Hnew. unfold bind at 1.
  destruct (doRequest_sent request backend net)
    as (response & err & backend1 & remote' & Hrun & Hresponse).
  rewrite Hrun. simpl.
  pose proof (told_authenticated _ request Hsent Hnew) as Hsent1.
  destruct err as [err|].
  - unfold bind.
    pose proof (FindBackend_keeps_authenticated director
                  (Backend.Address backend1) (Backend.Port backend1)
                  (mkNet remote' (sent net ++ [request])%list) Hsent1)
      as Hsent2.
    destruct (FindBackend director _ _ _) as [[[found|newErr]|reason] net2];
      exact Hsent2.
  - by destruct response.
Qed.

Lemma FindDirectorID_keeps_authenticated (name : string) (net : Net Server) :
  Forall (authenticated c) (sent net) ->
  Forall (authenticated c) (sent (snd (FindDirectorID name net))).
Proof.
  intros Hsent. unfold vaas.FindDirectorID, bind.
  pose proof (FindDirector_keeps_authenticated name net Hsent) as Hsent1.
  destruct (FindDirector name net) as [[[director|err]|reason] net1];
    exact Hsent1.
Qed.

Lemma FindBackendID_keeps_authenticated (director address : string) (port : Z)
  (net : Net Server) :
  Forall (authenticated c) (sent net) ->
  Forall (authenticated c)
    (sent (snd (FindBackendID director address port net))).
Proof.
  intros Hsent. unfold vaas.FindBackendID, bind.
  pose proof (FindDirector_keeps_authenticated director net Hsent) as Hsent1.
  destruct (FindDirector director net) as [[[found|err]|reason] net1];
    [|exact Hsent1..].
  simpl in Hsent1.
  pose proof (FindBackend_keeps_authenticated found address port net1 Hsent1)
    as Hsent2.
  destruct (FindBackend found address port net1)
    as [[[backend|err]|reason] net2]; [|exact Hsent2..].
  by destruct (Backend.ID backend).
Qed.

(** C7: a request that [newRequest] builds has the [username] and the
    [api_key] of the client among its query parameters, and so has every
    request that any call of the interface hands to the transport. *)
Theorem every_request_carries_credentials :
  (forall method url body request,
     newRequest method url body = inl request ->
     Values.carries (Query (URL request)) "username" (username c)
     /\ Values.carries (Query (URL request)) "api_key" (apiKey c))
  /\ (forall call server,
        Forall (authenticated c)
          (sent (after serve url_Parse url_String json_Marshal c call
                   (mkNet server [])))).
Proof.
  split; [apply newRequest_authenticated|].
  intros call server.
  assert (Forall (authenticated c) (sent (mkNet server []))) as Hsent
    by constructor.
  revert Hsent. generalize (mkNet server []). intros net Hsent.
  destruct call; simpl.
  - by apply FindDirector_keeps_authenticated.
  - by apply FindDirectorID_keeps_authenticated.
  - by apply AddBackend_keeps_authenticated.
  - by apply DeleteBackend_keeps_authenticated.
  - by apply GetDC_keeps_authenticated.
  - by apply FindBackend_keeps_authenticated.
  - by apply FindBackendID_keeps_authenticated.
Qed.

Lemma apiError_contains (request : Request) (response : Response) :
  contains (apiError request response) (url_String (URL request))
  /\ contains (apiError request response) (pretty (StatusCode response))
  /\ match RespBody response with
     | Readable text => contains (apiError request response) text
     | Unreadable readErr =>
         contains (apiError request response)
           ("Additional error reading raw response: " +:+ readErr)
     end.
Proof.
  unfold vaas.apiError. repeat split.
  - apply contains_append_r, contains_append_l, contains_refl.
  - do 3 apply contains_append_r. apply contains_append_l, contains_refl.
  - destruct (RespBody response) as [text|readErr]; simpl;
      do 5 apply contains_append_r; apply contains_refl.
Qed.

(** C8: for a request the server answers, [do] reports no error exactly
    when the status code is between 200 and 299; an error it reports has
    in its message the URL of the request, the status code, and the text
    of the body or, when the body cannot be read, a note with the error of
    the read. *)
Theorem do_succeeds_iff_2xx (request : Request) (net : Net Server)
  (response : Response) (remote' : Server) :
  serve request (remote net) = (Answered response, remote') ->
  exists err,
    do request net = (Returned (Some response, err), told net remote' request)
    /\ (err = None <-> is2xx (StatusCode response))
    /\ (forall message, err = Some message ->
          contains message (url_String (URL request))
          /\ contains message (pretty (StatusCode response))
          /\ match RespBody response with
             | Readable text => contains message text
             | Unreadable readErr =>
                 contains message
                   ("Additional error reading raw response: " +:+ readErr)
             end).
Proof.
  intros Hserve. rewrite (do_Answered _ _ _ _ Hserve).
  destruct ((StatusCode response <? 200)%Z || (StatusCode response >? 299)%Z)
    eqn:Hrange.
  - apply outside_2xx in Hrange. eexists. split; [done|]. split.
    + split; [done | by intros ?].
    + intros message [= <-]. apply apiError_contains.
  - apply inside_2xx in Hrange. exists None. split; [done|]. split; [done|].
    by intros message.
Qed.

(** C9: when the backend that [FindBackend] finds for the director found
    has no identifier, [FindBackendID] panics on the nil dereference and
    returns nothing; when it has one, [FindBackendID] returns it. *)
Theorem FindBackendID_panics_without_id (director address : string) (port : Z)
  (net net1 net2 : Net Server) (directorFound : Director.t)
  (backend : Backend.t) :
  FindDirector director net = (Returned (inl directorFound), net1) ->
  FindBackend directorFound address port net1
    = (Returned (inl backend), net2) ->
  (Backend.ID backend = None ->
   FindBackendID director address port net = (Panicked nilDereference, net2))
  /\ (forall id, Backend.ID backend = Some id ->
        FindBackendID director address port net = (Returned (inl id), net2)).
Proof.
  intros Hdirector Hbackend. unfold vaas.FindBackendID, bind.
  rewrite Hdirector, Hbackend. split.
  - by intros ->.
  - by intros id ->.
Qed.

(** C10: when the create request is answered with a 2xx status and the
    body decodes, [AddBackend] leaves in the caller's [Backend] what the
    decoder made of the body on top of the value passed in, identifier and
    resource locator included, and returns the [Location] header of the
    response, without a second request. *)
Theorem AddBackend_created (backend : Backend.t) (director : Director.t)
  (net : Net Server) (request : Request) (response : Response)
  (remote' : Server) (rawResponse : string) (decoded : Backend.t) :
  newRequest "POST" (host c +:+ apiBackendPath) (Some backend) = inl request ->
  serve request (remote net) = (Answered response, remote') ->
  is2xx (StatusCode response) ->
  RespBody response = Readable rawResponse ->
  json_Unmarshal rawResponse backend = (decoded, None) ->
  AddBackend backend director net =
    (Returned (decoded, inl (Header.Get "Location" (Header response))),
     told net remote' request).
Proof.
  intros Hnew Hserve H2xx Hbody Hjson. unfold vaas.AddBackend.
  rewrite Hnew. unfold bind.
  by rewrite (doRequest_decoded _ _ _ _ _ _ Hserve H2xx Hbody), Hjson.
Qed.

End Facts.

(** ** The theorems at work on the scripted remote *)

Import Fixture.

Lemma AddBackend_falls_back_to_existing_witness :
  exists net',
    AddBackend replay parse render marshal
      (unmarshalBackend := decodeBackend)
      (unmarshalBackendList := decodeBackendList) client fresh varnish
      (start [refused 409 "already there"; ok "backends 9090 8080"])
    = (Returned (fresh, inl "/api/v0.1/backend/42/"), net').
Proof.
  eexists.
  eapply (AddBackend_falls_back_to_existing replay parse render marshal
            (unmarshalBackend := decodeBackend)
            (unmarshalBackendList := decodeBackendList) client
            fresh varnish _ _ _ _ _ web8080).
  - vm_compute. reflexivity.
  - vm_compute. reflexivity.
  - unfold is2xx. simpl. lia.
  - vm_compute. reflexivity.
Defined.

Lemma AddBackend_returns_creation_error_witness :
  exists net',
    AddBackend replay parse render marshal
      (unmarshalBackend := decodeBackend)
      (unmarshalBackendList := decodeBackendList) client fresh varnish
      (start [refused 500 "boom"; ok "backends 9090"])
    = (Returned
         (fresh,
          inr "VaaS API error at http://vaas.local/api/v0.1/backend/?api_key=s3cret&username=hook (HTTP 500): boom"),
       net').
Proof.
  eexists.
  eapply (AddBackend_returns_creation_error replay parse render marshal
            (unmarshalBackend := decodeBackend)
            (unmarshalBackendList := decodeBackendList) client
            fresh varnish).
  - vm_compute. reflexivity.
  - vm_compute. reflexivity.
  - vm_compute. reflexivity.
Defined.

Lemma DeleteBackend_absent_is_success_witness :
  (exists net',
     DeleteBackend replay parse render marshal client 42
       (start [refused 404 "gone"]) = (Returned None, net'))
  /\ (exists net',
        DeleteBackend replay parse render marshal client 42
          (start [refused 500 "boom"])
        = (Returned
             (Some "VaaS API error at http://vaas.local/api/v0.1/backend/42/?api_key=s3cret&username=hook (HTTP 500): boom"),
           net')).
Proof.
  split; eexists.
  - edestruct (DeleteBackend_absent_is_success replay parse render marshal
                 client 42 (start [refused 404 "gone"])) as [Habsent _];
      [vm_compute; reflexivity | vm_compute; reflexivity |].
    etrans; [by apply Habsent|]. vm_compute. reflexivity.
  - edestruct (DeleteBackend_absent_is_success replay parse render marshal
                 client 42 (start [refused 500 "boom"])) as [_ Hother];
      [vm_compute; reflexivity | vm_compute; reflexivity |].
    etrans.
    { apply Hother; [unfold is2xx; simpl; lia | discriminate]. }
    vm_compute. reflexivity.
Defined.

Lemma FindDirector_reads_first_page_only_witness :
  Meta.Next (DirectorList.Meta canaryPage)
    = Some "/api/v0.1/director/?offset=1"
  /\ exists request,
       FindDirector replay parse render marshal
         (unmarshalDirectorList := decodeDirectorList) client "varnish"
         (start [ok "directors canary"])
       = (Returned (inr "no Director with name varnish found"),
          mkNet [] [request]).
Proof.
  split; [reflexivity|]. eexists. etrans.
  { eapply (FindDirector_reads_first_page_only replay parse render marshal
              (unmarshalDirectorList := decodeDirectorList) client "varnish"
              (start [ok "directors canary"]) _ _ _ _ canaryPage).
    - vm_compute. reflexivity.
    - vm_compute. reflexivity.
    - unfold is2xx. simpl. lia.
    - reflexivity.
    - vm_compute. reflexivity.
    - repeat constructor. discriminate. }
  vm_compute. reflexivity.
Defined.

Lemma FindDirector_exact_name_only_witness :
  Director.Name varnish = "varnish"
  /\ exists before after,
       DirectorList.Objects directorPage = (before ++ varnish :: after)%list
       /\ Forall (fun other => Director.Name other <> "varnish") before.
Proof.
  eapply (FindDirector_exact_name_only replay parse render marshal
            (unmarshalDirectorList := decodeDirectorList) client "varnish"
            (start [ok "directors canary varnish"])).
  - vm_compute. reflexivity.
  - vm_compute. reflexivity.
  - unfold is2xx. simpl. lia.
  - reflexivity.
  - vm_compute. reflexivity.
  - vm_compute. reflexivity.
Defined.

Lemma FindBackend_filters_strictly_witness :
  (web8080 ∈ [web9090; web8080]
   /\ Backend.Address web8080 = "10.0.0.5" /\ Backend.Port web8080 = 8080)
  /\ exists net',
       FindBackend replay parse render marshal
         (unmarshalBackendList := decodeBackendList) client varnish
         "10.0.0.5" 8080 (start [ok "backends 9090"])
       = (Returned (inr "backend not found"), net').
Proof.
  split.
  - edestruct (FindBackend_filters_strictly replay parse render marshal
                 (unmarshalBackendList := decodeBackendList) client varnish
                 "10.0.0.5" 8080 (start [ok "backends 9090 8080"]))
      as [Hfound _];
      [ vm_compute; reflexivity | vm_compute; reflexivity
      | unfold is2xx; simpl; lia | reflexivity | vm_compute; reflexivity |].
    eapply Hfound. vm_compute. reflexivity.
  - eexists.
    edestruct (FindBackend_filters_strictly replay parse render marshal
                 (unmarshalBackendList := decodeBackendList) client varnish
                 "10.0.0.5" 8080 (start [ok "backends 9090"]))
      as [_ Hnone];
      [ vm_compute; reflexivity | vm_compute; reflexivity
      | unfold is2xx; simpl; lia | reflexivity | vm_compute; reflexivity |].
    etrans.
    { apply Hnone. repeat constructor. intros [_ Hport]. discriminate Hport. }
    vm_compute. reflexivity.
Defined.

Lemma every_request_carries_credentials_witness :
  Forall (authenticated client)
    (sent (after replay parse render marshal
             (unmarshalBackend := decodeBackend)
             (unmarshalBackendList := decodeBackendList)
             (unmarshalDCList := decodeDCList)
             (unmarshalDirectorList := decodeDirectorList) client
             (CallAddBackend fresh varnish)
             (start [refused 409 "already there"; ok "backends 9090 8080"]))).
Proof.
  apply (proj2 (every_request_carries_credentials replay parse render marshal
                  (unmarshalBackend := decodeBackend)
                  (unmarshalBackendList := decodeBackendList)
                  (unmarshalDCList := decodeDCList)
                  (unmarshalDirectorList := decodeDirectorList) client)).
Defined.

Lemma do_succeeds_iff_2xx_witness :
  exists err,
    do replay render probe (start [refused 503 "down"])
    = (Returned (Some (mkResponse 503 ∅ (Readable "down")), err),
       mkNet [] [probe])
    /\ (err = None <-> is2xx 503)
    /\ (forall message, err = Some message ->
          contains message
              "http://vaas.local/api/v0.1/dc/?api_key=s3cret&username=hook"
          /\ contains message "503"
          /\ contains message "down").
Proof.
  apply (do_succeeds_iff_2xx replay render probe (start [refused 503 "down"])
           (mkResponse 503 ∅ (Readable "down")) []).
  reflexivity.
Defined.

Lemma FindBackendID_panics_without_id_witness :
  (exists net',
     FindBackendID replay parse render marshal
       (unmarshalBackendList := decodeBackendList)
       (unmarshalDirectorList := decodeDirectorList) client
       "varnish" "10.0.0.5" 8080
       (start [ok "directors canary varnish"; ok "backends anonymous"])
     = (Panicked nilDereference, net'))
  /\ (exists net',
        FindBackendID replay parse render marshal
          (unmarshalBackendList := decodeBackendList)
          (unmarshalDirectorList := decodeDirectorList) client
          "varnish" "10.0.0.5" 8080
          (start [ok "directors canary varnish"; ok "backends 9090 8080"])
        = (Returned (inl 42), net')).
Proof.
  split; eexists.
  - edestruct (FindBackendID_panics_without_id replay parse render marshal
                 (unmarshalBackendList := decodeBackendList)
                 (unmarshalDirectorList := decodeDirectorList) client
                 "varnish" "10.0.0.5" 8080
                 (start [ok "directors canary varnish"; ok "backends anonymous"]))
      as [Hpanic _]; [vm_compute; reflexivity | vm_compute; reflexivity |].
    apply Hpanic. reflexivity.
  - edestruct (FindBackendID_panics_without_id replay parse render marshal
                 (unmarshalBackendList := decodeBackendList)
                 (unmarshalDirectorList := decodeDirectorList) client
                 "varnish" "10.0.0.5" 8080
                 (start [ok "directors canary varnish"; ok "backends 9090 8080"]))
      as [_ Hid]; [vm_compute; reflexivity | vm_compute; reflexivity |].
    apply Hid. reflexivity.
Defined.

Lemma AddBackend_created_witness :
  exists net',
    AddBackend replay parse render marshal
      (unmarshalBackend := decodeBackend)
      (unmarshalBackendList := decodeBackendList) client fresh varnish
      (start [created "/api/v0.1/backend/42/" "created 42"])
    = (Returned (web8080, inl "/api/v0.1/backend/42/"), net').
Proof.
  eexists. etrans.
  { eapply (AddBackend_created replay parse render marshal
              (unmarshalBackend := decodeBackend)
              (unmarshalBackendList := decodeBackendList) client
              fresh varnish
              (start [created "/api/v0.1/backend/42/" "created 42"])).
    - vm_compute. reflexivity.
    - vm_compute. reflexivity.
    - unfold is2xx. simpl. lia.
    - reflexivity.
    - vm_compute. reflexivity. }
  vm_compute. reflexivity.
Defined.

(** ** The rest of the client: lookups, traffic, edge behaviour *)

Lemma scanDCs_first (name : string) (objects : list DC.t) (dc : DC.t) :
  scanDCs name objects = Some dc <->
  exists before after,
    objects = (before ++ dc :: after)%list
    /\ Forall (fun other => DC.Symbol other <> name) before
    /\ DC.Symbol dc = name.
Proof.
  split.
  - induction objects as [|d rest IH]; [done|]. simpl.
    destruct (String.eqb (DC.Symbol d) name) eqn:Heq.
    + intros [= <-]. apply String.eqb_eq in Heq. by exists [], rest.
    + intros Hscan. destruct (IH Hscan) as (before & after & -> & Hbefore & ?).
      exists (d :: before), after. split; [done|]. split; [|done].
      constructor; [|done]. by apply String.eqb_neq.
  - intros (before & after & -> & Hbefore & Hdc).
    induction Hbefore as [|d before Hd _ IH]; simpl.
    + apply String.eqb_eq in Hdc. by rewrite Hdc.
    + apply String.eqb_neq in Hd. by rewrite Hd.
Qed.

Lemma scanDCs_None (name : string) (objects : list DC.t) :
  scanDCs name objects = None <->
  Forall (fun dc => DC.Symbol dc <> name) objects.
Proof.
  induction objects as [|d rest IH]; simpl; [by split|].
  destruct (String.eqb (DC.Symbol d) name) eqn:Heq.
  - apply String.eqb_eq in Heq. split; [done|]. by inversion 1.
  - apply String.eqb_neq in Heq. rewrite IH. split.
    + by constructor.
    + by inversion 1.
Qed.

Lemma scanDirectors_first (name : string) (objects : list Director.t)
  (director : Director.t) :
  (exists before after,
     objects = (before ++ director :: after)%list
     /\ Forall (fun other => Director.Name other <> name) before
     /\ Director.Name director = name) ->
  scanDirectors name objects = Some director.
Proof.
  intros (before & after & -> & Hbefore & Hname).
  induction Hbefore as [|d before Hd _ IH]; simpl.
  - apply String.eqb_eq in Hname. by rewrite Hname.
  - apply String.eqb_neq in Hd. by rewrite Hd.
Qed.

Lemma scanBackends_first (address : string) (port : Z)
  (objects : list Backend.t) (backend : Backend.t) :
  (exists before after,
     objects = (before ++ backend :: after)%list
     /\ Forall (fun other => ~ (Backend.Address other = address
                               /\ Backend.Port other = port)) before
     /\ Backend.Address backend = address /\ Backend.Port backend = port) ->
  scanBackends address port objects = Some backend.
Proof.
  intros (before & after & -> & Hbefore & Haddress & Hport).
  induction Hbefore as [|b before Hb _ IH]; simpl.
  - apply String.eqb_eq in Haddress. apply Z.eqb_eq in Hport.
    by rewrite Haddress, Hport.
  - destruct (String.eqb (Backend.Address b) address
              && (Backend.Port b =? port)%Z) eqn:Heq; [|done].
    apply andb_true_iff in Heq as [Ha Hp].
    apply String.eqb_eq in Ha. apply Z.eqb_eq in Hp. by destruct Hb.
Qed.

Lemma Header_Get_Set (key value : string) (h : gmap string (list string)) :
  Header.Get key (Header.Set_ key value h) = value.
Proof. unfold Header.Get, Header.Set_. by rewrite lookup_insert_eq. Qed.

Lemma Header_Get_Set_ne (key key' value : string)
  (h : gmap string (list string)) :
  key <> key' ->
  Header.Get key' (Header.Set_ key value h) = Header.Get key' h.
Proof.
  intros Hne. unfold Header.Get, Header.Set_. by rewrite lookup_insert_ne.
Qed.

Section Coverage.

Context {Server : Type}.
Variable serve : Request -> Server -> RoundTrip * Server.
Variable url_Parse : string -> Url + error.
Variable url_String : Url -> string.
Variable json_Marshal : option Backend.t -> string + error.
Context {unmarshalBackend : Unmarshal Backend.t}.
Context {unmarshalBackendList : Unmarshal BackendList.t}.
Context {unmarshalDCList : Unmarshal DCList.t}.
Context {unmarshalDirectorList : Unmarshal DirectorList.t}.
Variable c : defaultClient.

Local Abbreviation newRequest := (newRequest url_Parse json_Marshal c).
Local Abbreviation apiError := (apiError url_String).
Local Abbreviation do := (do serve url_String).
Local Abbreviation doRequest := (doRequest serve url_String).
Local Abbreviation FindDirector :=
  (FindDirector serve url_Parse url_String json_Marshal c).
Local Abbreviation FindBackend :=
  (FindBackend serve url_Parse url_String json_Marshal c).
Local Abbreviation AddBackend :=
  (AddBackend serve url_Parse url_String json_Marshal c).
Local Abbreviation DeleteBackend :=
  (DeleteBackend serve url_Parse url_String json_Marshal c).
Local Abbreviation GetDC := (GetDC serve url_Parse url_String json_Marshal c).
Local Abbreviation FindBackendID :=
  (FindBackendID serve url_Parse url_String json_Marshal c).
Local Abbreviation FindDirectorID :=
  (FindDirectorID serve url_Parse url_String json_Marshal c).
Local Abbreviation after :=
  (after serve url_Parse url_String json_Marshal c).
Local Abbreviation told net remote' request :=
  (mkNet remote' (sent net ++ [request])%list).

(** What [newRequest] builds, field by field. *)
Lemma newRequest_inv (method url : string) (body : option Backend.t)
  (request : Request) :
  newRequest method url body = inl request ->
  exists jsonBody u,
    json_Marshal body = inl jsonBody
    /\ url_Parse url = inl u
    /\ request =
         mkRequest method
           (mkUrl (Rest u)
              (Values.Add "api_key" (apiKey c)
                 (Values.Add "username" (username c) (RawQuery u))))
           (Header.Set_ "Content-Type" "application/json"
              (Header.Set_ "Accept" "application/json" ∅))
           jsonBody.
Proof.
  unfold vaas.newRequest, http_NewRequest.
  destruct (json_Marshal body) as [jsonBody|err]; [|done].
  destruct (url_Parse url) as [u|err]; [|done].
  intros [= <-]. by exists jsonBody, u.
Qed.

(** GetDC, once the listing came back and decoded. *)
Lemma GetDC_listed (name : string) (net : Net Server) (request : Request)
  (response : Response) (remote' : Server) (rawResponse : string)
  (page : DCList.t) :
  newRequest "GET" (host c +:+ apiDcPath) None = inl request ->
  serve request (remote net) = (Answered response, remote') ->
  is2xx (StatusCode response) ->
  RespBody response = Readable rawResponse ->
  json_Unmarshal rawResponse DCList.zero = (page, None) ->
  GetDC name net =
    (Returned
       match scanDCs name (DCList.Objects page) with
       | Some dc => inl dc
       | None => inr ("no DC with name " +:+ name +:+ " found")
       end,
     told net remote' request).
Proof.
  intros Hnew Hserve H2xx Hbody Hjson. unfold vaas.GetDC.
  rewrite Hnew. unfold bind.
  rewrite (doRequest_decoded serve url_String _ _ _ _ _ _ Hserve H2xx Hbody).
  rewrite Hjson. simpl. by destruct (scanDCs _ _).
Qed.

(** FindDirector, once the listing came back and decoded. *)
Lemma FindDirector_listed (name : string) (net : Net Server)
  (request : Request) (response : Response) (remote' : Server)
  (rawResponse : string) (page : DirectorList.t) :
  newRequest "GET" (host c +:+ apiDirectorPath) None = inl request ->
  serve (directorListRequest name request) (remote net)
    = (Answered response, remote') ->
  is2xx (StatusCode response) ->
  RespBody response = Readable rawResponse ->
  json_Unmarshal rawResponse DirectorList.zero = (page, None) ->
  FindDirector name net =
    (Returned
       match scanDirectors name (DirectorList.Objects page) with
       | Some director => inl director
       | None => inr ("no Director with name " +:+ name +:+ " found")
       end,
     told net remote' (directorListRequest name request)).
Proof.
  intros Hnew Hserve H2xx Hbody Hjson. unfold vaas.FindDirector.
  rewrite Hnew. unfold bind. fold (directorListRequest name request).
  rewrite (doRequest_decoded serve url_String _ _ _ _ _ _ Hserve H2xx Hbody).
  rewrite Hjson. simpl. by destruct (scanDirectors _ _).
Qed.

(** X1: once the datacenter listing came back and decoded, [GetDC]
    returns the first datacenter of the page whose symbol is [name],
    whatever the names of the datacenters are, and the not-found error
    when no symbol of the page is [name]; the one request it sends is the
    one [newRequest] built, without a filter. *)
Theorem GetDC_matches_symbol (name : string) (net : Net Server)
  (request : Request) (response : Response) (remote' : Server)
  (rawResponse : string) (page : DCList.t) :
  newRequest "GET" (host c +:+ apiDcPath) None = inl request ->
  serve request (remote net) = (Answered response, remote') ->
  is2xx (StatusCode response) ->
  RespBody response = Readable rawResponse ->
  json_Unmarshal rawResponse DCList.zero = (page, None) ->
  (forall dc,
     GetDC name net = (Returned (inl dc), told net remote' request) <->
     exists before after,
       DCList.Objects page = (before ++ dc :: after)%list
       /\ Forall (fun other => DC.Symbol other <> name) before
       /\ DC.Symbol dc = name)
  /\ (GetDC name net =
        (Returned (inr ("no DC with name " +:+ name +:+ " found")),
         told net remote' request) <->
      Forall (fun dc => DC.Symbol dc <> name) (DCList.Objects page)).
Proof.
  intros Hnew Hserve H2xx Hbody Hjson.
  rewrite (GetDC_listed _ _ _ _ _ _ _ Hnew Hserve H2xx Hbody Hjson).
  split.
  - intros dc. rewrite <- scanDCs_first.
    destruct (scanDCs name _) as [found|]; split; intros ?; by simplify_eq.
  - rewrite <- scanDCs_None.
    destruct (scanDCs name _) as [found|]; split; intros ?; by simplify_eq.
Qed.

(** X2: once the director listing came back and decoded, [FindDirector]
    returns the first director of the page named [name] whenever the page
    has one. *)
Theorem FindDirector_finds_present (name : string) (net : Net Server)
  (request : Request) (response : Response) (remote' : Server)
  (rawResponse : string) (page : DirectorList.t)
  (before after : list Director.t) (director : Director.t) :
  newRequest "GET" (host c +:+ apiDirectorPath) None = inl request ->
  serve (directorListRequest name request) (remote net)
    = (Answered response, remote') ->
  is2xx (StatusCode response) ->
  RespBody response = Readable rawResponse ->
  json_Unmarshal rawResponse DirectorList.zero = (page, None) ->
  DirectorList.Objects page = (before ++ director :: after)%list ->
  Forall (fun other => Director.Name other <> name) before ->
  Director.Name director = name ->
  FindDirector name net =
    (Returned (inl director),
     told net remote' (directorListRequest name request)).
Proof.
  intros Hnew Hserve H2xx Hbody Hjson Hpage Hbefore Hname.
  rewrite (FindDirector_listed _ _ _ _ _ _ _ Hnew Hserve H2xx Hbody Hjson).
  by rewrite (scanDirectors_first name _ director); [|exists before, after].
Qed.

(** X3: once the backend listing came back and decoded, [FindBackend]
    returns the first backend of the list that has both the address and
    the port asked for, also when later ones have them too. *)
Theorem FindBackend_first_match (director : Director.t) (address : string)
  (port : Z) (net : Net Server) (request : Request) (response : Response)
  (remote' : Server) (rawResponse : string) (page : BackendList.t)
  (before after : list Backend.t) (backend : Backend.t) :
  newRequest "GET" (host c +:+ apiBackendPath) None = inl request ->
  serve (backendListRequest director address port request) (remote net)
    = (Answered response, remote') ->
  is2xx (StatusCode response) ->
  RespBody response = Readable rawResponse ->
  json_Unmarshal rawResponse BackendList.zero = (page, None) ->
  BackendList.Objects page = (before ++ backend :: after)%list ->
  Forall (fun other => ~ (Backend.Address other = address
                          /\ Backend.Port other = port)) before ->
  Backend.Address backend = address ->
  Backend.Port backend = port ->
  FindBackend director address port net =
    (Returned (inl backend),
     told net remote' (backendListRequest director address port request)).
Proof.
  intros Hnew Hserve H2xx Hbody Hjson Hpage Hbefore Haddress Hport.
  rewrite (FindBackend_listed serve url_Parse url_String json_Marshal c
             _ _ _ _ _ _ _ _ _ Hnew Hserve H2xx Hbody Hjson).
  by rewrite (scanBackends_first address port _ backend);
    [|exists before, after].
Qed.

(** X4: once the director listing came back and decoded,
    [FindDirectorID] returns the identifier of the first director of the
    page named [name], and when the page has none, the not-found error of
    [FindDirector] behind the words "cannot determine director ID". *)
Theorem FindDirectorID_resolves (name : string) (net : Net Server)
  (request : Request) (response : Response) (remote' : Server)
  (rawResponse : string) (page : DirectorList.t) :
  newRequest "GET" (host c +:+ apiDirectorPath) None = inl request ->
  serve (directorListRequest name request) (remote net)
    = (Answered response, remote') ->
  is2xx (StatusCode response) ->
  RespBody response = Readable rawResponse ->
  json_Unmarshal rawResponse DirectorList.zero = (page, None) ->
  (forall before after director,
     DirectorList.Objects page = (before ++ director :: after)%list ->
     Forall (fun other => Director.Name other <> name) before ->
     Director.Name director = name ->
     FindDirectorID name net =
       (Returned (inl (Director.ID director)),
        told net remote' (directorListRequest name request)))
  /\ (Forall (fun director => Director.Name director <> name)
        (DirectorList.Objects page) ->
      FindDirectorID name net =
        (Returned
           (inr ("cannot determine director ID: no Director with name "
                 +:+ name +:+ " found")),
         told net remote' (directorListRequest name request))).
Proof.
  intros Hnew Hserve H2xx Hbody Hjson. unfold vaas.FindDirectorID, bind.
  rewrite (FindDirector_listed _ _ _ _ _ _ _ Hnew Hserve H2xx Hbody Hjson).
  split.
  - intros before after director Hpage Hbefore Hname.
    by rewrite (scanDirectors_first name _ director); [|exists before, after].
  - intros Hnone. rewrite scanDirectors_None; [done|].
    intros director Hin. by apply (proj1 (Forall_forall _ _) Hnone).
Qed.

(** *** What each call sends, and that it returns *)

Lemma FindDirector_run (name : string) (net : Net Server) :
  exists result net',
    FindDirector name net = (Returned result, net')
    /\ sent net' =
         (sent net
          ++ lookupTrace (newRequest "GET" (host c +:+ apiDirectorPath) None)
               (directorListRequest name))%list
    /\ (forall director, result = inl director ->
          exists request,
            newRequest "GET" (host c +:+ apiDirectorPath) None = inl request).
Proof.
  unfold vaas.FindDirector.
  destruct (newRequest "GET" (host c +:+ apiDirectorPath) None)
    as [request|err]; simpl.
  - fold (directorListRequest name request). unfold bind.
    destruct (doRequest_sent serve url_String
                (directorListRequest name request) DirectorList.zero net)
      as (response & err & decoded & remote' & -> & _).
    destruct err as [err|]; [by eexists _, _; eauto|]. simpl.
    destruct (scanDirectors name _); eexists _, _; eauto.
  - eexists _, _. split; [done|]. split; [by rewrite app_nil_r | done].
Qed.

Lemma FindBackend_run (director : Director.t) (address : string) (port : Z)
  (net : Net Server) :
  exists result net',
    FindBackend director address port net = (Returned result, net')
    /\ sent net' =
         (sent net
          ++ lookupTrace (newRequest "GET" (host c +:+ apiBackendPath) None)
               (backendListRequest director address port))%list.
Proof.
  unfold vaas.FindBackend.
  destruct (newRequest "GET" (host c +:+ apiBackendPath) None)
    as [request|err]; simpl.
  - fold (backendListRequest director address port request). unfold bind.
    destruct (doRequest_sent serve url_String
                (backendListRequest director address port request)
                BackendList.zero net)
      as (response & err & decoded & remote' & -> & _).
    destruct err as [err|]; [by eexists _, _|]. simpl.
    destruct (scanBackends address port _); by eexists _, _.
  - eexists _, _. split; [done|]. by rewrite app_nil_r.
Qed.

Lemma GetDC_run (name : string) (net : Net Server) :
  exists result net',
    GetDC name net = (Returned result, net')
    /\ sent net' =
         (sent net
          ++ lookupTrace (newRequest "GET" (host c +:+ apiDcPath) None) id)%list.
Proof.
  unfold vaas.GetDC.
  destruct (newRequest "GET" (host c +:+ apiDcPath) None)
    as [request|err]; simpl.
  - unfold bind.
    destruct (doRequest_sent serve url_String request DCList.zero net)
      as (response & err & decoded & remote' & -> & _).
    destruct err as [err|]; [by eexists _, _|]. simpl.
    destruct (scanDCs name _); by eexists _, _.
  - eexists _, _. split; [done|]. by rewrite app_nil_r.
Qed.

Lemma DeleteBackend_run (id : Z) (net : Net Server) :
  exists result net',
    DeleteBackend id net = (Returned result, net')
    /\ sent net' =
         (sent net
          ++ lookupTrace
               (newRequest "DELETE"
                  (host c +:+ apiBackendPath +:+ pretty id +:+ "/") None)
               deleteRequest)%list.
Proof.
  unfold vaas.DeleteBackend.
  destruct (newRequest "DELETE" _ None) as [request|err]; simpl.
  - fold (deleteRequest request). unfold bind.
    destruct (do_sent serve url_String (deleteRequest request) net)
      as ([response err] & remote' & ->).
    destruct response as [response|]; [|by eexists _, _].
    destruct (_ =? _)%Z; by eexists _, _.
  - eexists _, _. split; [done|]. by rewrite app_nil_r.
Qed.

Lemma AddBackend_run (backend : Backend.t) (director : Director.t)
  (net : Net Server) :
  exists result net',
    AddBackend backend director net = (Returned result, net')
    /\ exists requests,
         sent net' = (sent net ++ requests)%list
         /\ traffic url_Parse json_Marshal c
              (CallAddBackend backend director) requests.
Proof.
  unfold vaas.AddBackend, traffic.
  destruct (newRequest "POST" (host c +:+ apiBackendPath) (Some backend))
    as [request|err]; simpl.
  - unfold bind at 1.
    destruct (doRequest_sent serve url_String request backend net)
      as (response & err & backend1 & remote' & -> & Hresponse).
    simpl. destruct err as [err|].
    + unfold bind.
      destruct (FindBackend_run director (Backend.Address backend1)
                  (Backend.Port backend1)
                  (mkNet remote' (sent net ++ [request])%list))
        as (found & net2 & -> & Hsent).
      exists (backend1,
              match found with
              | inl backend' => inl (Backend.ResourceURI backend')
              | inr _ => inr err
              end), net2.
      split; [by destruct found|].
      exists ([request]
              ++ lookupTrace
                   (newRequest "GET" (host c +:+ apiBackendPath) None)
                   (backendListRequest director (Backend.Address backend1)
                      (Backend.Port backend1)))%list.
      split; [rewrite Hsent; simpl; by rewrite <- app_assoc|].
      right. exists (Backend.Address backend1), (Backend.Port backend1).
      split; [by eexists | done].
    + destruct (Hresponse eq_refl) as [response' ->].
      eexists _, _. split; [done|]. exists [request]. split; [done|]. by left.
  - eexists _, _. split; [done|]. exists []. split; [|by left].
    by rewrite app_nil_r.
Qed.

Lemma FindBackendID_run (director address : string) (port : Z)
  (net : Net Server) :
  exists requests,
    sent (snd (FindBackendID director address port net))
      = (sent net ++ requests)%list
    /\ traffic url_Parse json_Marshal c
         (CallFindBackendID director address port) requests.
Proof.
  unfold vaas.FindBackendID, traffic, bind.
  destruct (FindDirector_run director net)
    as (found & net1 & -> & Hsent1 & Hbuilt).
  destruct found as [directorFound|err].
  - destruct (FindBackend_run directorFound address port net1)
      as (backend & net2 & -> & Hsent2).
    eexists. split; [|right; exists directorFound; split; [by eapply Hbuilt|]].
    2: reflexivity.
    rewrite app_assoc, <- Hsent1.
    destruct backend as [backend|err]; [destruct (Backend.ID backend)|];
      exact Hsent2.
  - eexists. split; [exact Hsent1 | by left].
Qed.

Lemma after_traffic (call : Call) (net : Net Server) :
  exists requests,
    sent (after call net) = (sent net ++ requests)%list
    /\ traffic url_Parse json_Marshal c call requests.
Proof.
  destruct call as [name|name|backend director|id|name|director address port
                   |director address port]; simpl.
  - destruct (FindDirector_run name net) as (? & ? & -> & Hsent & _).
    by eexists.
  - unfold vaas.FindDirectorID, bind.
    destruct (FindDirector_run name net) as (found & ? & -> & Hsent & _).
    eexists. split; [|reflexivity]. by destruct found.
  - destruct (AddBackend_run backend director net) as (? & ? & -> & Hrun).
    exact Hrun.
  - destruct (DeleteBackend_run id net) as (? & ? & -> & Hsent). by eexists.
  - destruct (GetDC_run name net) as (? & ? & -> & Hsent). by eexists.
  - destruct (FindBackend_run director address port net)
      as (? & ? & -> & Hsent).
    by eexists.
  - apply FindBackendID_run.
Qed.

(** A property of the requests [newRequest] builds for the URLs of the
    host that the calls keep when they complete a request holds of all
    they send. *)
Lemma traffic_Forall (P : Request -> Prop) (call : Call)
  (requests : list Request) :
  (forall method path body request,
     newRequest method (host c +:+ path) body = inl request -> P request) ->
  (forall name request, P request -> P (directorListRequest name request)) ->
  (forall director address port request,
     P request -> P (backendListRequest director address port request)) ->
  (forall id request,
     call = CallDeleteBackend id -> P request -> P (deleteRequest request)) ->
  traffic url_Parse json_Marshal c call requests ->
  Forall P requests.
Proof.
  intros Hnew Hdirector Hbackend Hdelete.
  assert (forall method path body complete,
            (forall request, P request -> P (complete request)) ->
            Forall P
              (lookupTrace (newRequest method (host c +:+ path) body)
                 complete))
    as Hone.
  { intros method path body complete Hcomplete. unfold lookupTrace.
    destruct (newRequest method (host c +:+ path) body)
      as [request|err] eqn:Hbuilt; [|constructor].
    constructor; [|constructor]. eapply Hcomplete, Hnew, Hbuilt. }
  destruct call as [name|name|backend director|id|name|director address port
                   |director address port]; simpl.
  - intros ->. apply Hone, Hdirector.
  - intros ->. apply Hone, Hdirector.
  - intros [->|(address & port & _ & ->)].
    + by apply Hone.
    + apply Forall_app. split; apply Hone; [done | apply Hbackend].
  - intros ->. apply Hone. intros request. by apply (Hdelete id).
  - intros ->. by apply Hone.
  - intros ->. apply Hone, Hbackend.
  - intros [->|(director' & _ & ->)].
    + apply Hone, Hdirector.
    + apply Forall_app. split; apply Hone; [apply Hdirector | apply Hbackend].
Qed.

(** X5: whatever the server does, each of the six calls but
    [FindBackendID] returns: none of them panics. *)
Theorem calls_return (net : Net Server) :
  (forall name, exists result net',
     FindDirector name net = (Returned result, net'))
  /\ (forall name, exists result net',
        FindDirectorID name net = (Returned result, net'))
  /\ (forall backend director, exists result net',
        AddBackend backend director net = (Returned result, net'))
  /\ (forall id, exists result net',
        DeleteBackend id net = (Returned result, net'))
  /\ (forall name, exists result net',
        GetDC name net = (Returned result, net'))
  /\ (forall director address port, exists result net',
        FindBackend director address port net = (Returned result, net')).
Proof.
  repeat split.
  - intros name.
    destruct (FindDirector_run name net) as (? & ? & -> & _). by eexists _, _.
  - intros name. unfold vaas.FindDirectorID, bind.
    destruct (FindDirector_run name net) as (found & ? & -> & _).
    destruct found; by eexists _, _.
  - intros backend director.
    destruct (AddBackend_run backend director net) as (? & ? & -> & _).
    by eexists _, _.
  - intros id.
    destruct (DeleteBackend_run id net) as (? & ? & -> & _). by eexists _, _.
  - intros name.
    destruct (GetDC_run name net) as (? & ? & -> & _). by eexists _, _.
  - intros director address port.
    destruct (FindBackend_run director address port net) as (? & ? & -> & _).
    by eexists _, _.
Qed.

(** X6: [FindBackendID] panics in one case only: the director was found,
    a backend was found for it, and that backend has no identifier. *)
Theorem FindBackendID_panics_only_without_id (director address : string)
  (port : Z) (net net' : Net Server) (reason : string) :
  FindBackendID director address port net = (Panicked reason, net') ->
  reason = nilDereference
  /\ exists directorFound net1 backend,
       FindDirector director net = (Returned (inl directorFound), net1)
       /\ FindBackend directorFound address port net1
            = (Returned (inl backend), net')
       /\ Backend.ID backend = None.
Proof.
  unfold vaas.FindBackendID, bind.
  destruct (FindDirector_run director net) as (found & net1 & -> & _).
  destruct found as [directorFound|err]; [|done].
  destruct (FindBackend_run directorFound address port net1)
    as (backend & net2 & Hfind & _).
  rewrite Hfind. destruct backend as [backend|err]; [|done].
  destruct (Backend.ID backend) as [id|] eqn:Hid; [done|].
  intros [= <- <-]. split; [done|]. by exists directorFound, net1, backend.
Qed.

(** X7: every request that any call hands to the transport has the
    headers [Accept] and [Content-Type] set to [application/json], the
    bodiless GET and DELETE requests included. *)
Theorem every_request_speaks_json (call : Call) (server : Server) :
  Forall speaksJSON (sent (after call (mkNet server []))).
Proof.
  destruct (after_traffic call (mkNet server [])) as (requests & -> & Htraffic).
  simpl. revert Htraffic. apply traffic_Forall.
  - intros method url body request Hnew.
    apply newRequest_inv in Hnew as (jsonBody & u & _ & _ & ->).
    split; simpl.
    + by rewrite Header_Get_Set_ne, Header_Get_Set.
    + by rewrite Header_Get_Set.
  - done.
  - done.
  - intros id request _ [Haccept Htype]. unfold deleteRequest, preferHeader.
    split; simpl; by rewrite Header_Get_Set_ne.
Qed.

(** X8: the requests of [DeleteBackend] ask for asynchronous handling
    with the header [Prefer: respond-async]; no request of another call
    has a [Prefer] header. *)
Theorem only_delete_prefers_async (call : Call) (server : Server) :
  Forall (fun request => ReqHeader request !! "Prefer" = preference call)
    (sent (after call (mkNet server []))).
Proof.
  destruct (after_traffic call (mkNet server [])) as (requests & -> & Htraffic).
  simpl.
  assert (forall method path body request,
            newRequest method (host c +:+ path) body = inl request ->
            ReqHeader request !! "Prefer" = None) as Hplain.
  { intros method path body request Hnew.
    by apply newRequest_inv in Hnew as (jsonBody & u & _ & _ & ->). }
  destruct call as [name|name|backend director|id|name|director address port
                   |director address port].
  4: { simpl in Htraffic. subst requests. unfold lookupTrace.
       destruct (newRequest "DELETE" _ None) as [request|err]; constructor;
         [|constructor].
       apply lookup_insert_eq. }
  all: by apply (traffic_Forall _ _ _ Hplain) in Htraffic.
Qed.

Lemma lookupTrace_addressed (method url : string) (body : option Backend.t)
  (complete : Request -> Request) :
  (forall request,
     Method (complete request) = Method request
     /\ Rest (URL (complete request)) = Rest (URL request)
     /\ ReqBody (complete request) = ReqBody request) ->
  lookupTrace (newRequest method url body) complete = []
  \/ exists request,
       lookupTrace (newRequest method url body) complete = [request]
       /\ addressed url_Parse json_Marshal request (method, url, body).
Proof.
  intros Hcomplete. unfold lookupTrace.
  destruct (newRequest method url body) as [request|err] eqn:Hnew;
    [right | by left].
  eexists. split; [done|].
  destruct (Hcomplete request) as (Hmethod & Hrest & Hbody).
  apply newRequest_inv in Hnew as (jsonBody & u & Hjson & Hparse & ->).
  unfold addressed. rewrite Hmethod, Hrest, Hbody. simpl.
  split; [done|]. split; [by exists u | done].
Qed.

Ltac rows := simpl; repeat (constructor; [eassumption|]); constructor.

(** X9: the requests a call hands to the transport are, in order, the
    first ones of its row of the table of endpoints, each with the method,
    the URL and the body of its entry: at most one request for a lookup or
    a delete, at most two for [AddBackend] and [FindBackendID], and never
    one sent again. *)
Theorem calls_follow_endpoints (call : Call) (server : Server) :
  exists n,
    Forall2 (addressed url_Parse json_Marshal)
      (sent (after call (mkNet server [])))
      (take n (endpoints c call)).
Proof.
  destruct (after_traffic call (mkNet server [])) as (requests & -> & Htraffic).
  simpl.
  assert (forall request : Request,
            Method request = Method request
            /\ Rest (URL request) = Rest (URL request)
            /\ ReqBody request = ReqBody request) as Hsame by done.
  pose proof (fun method url body =>
                lookupTrace_addressed method url body id Hsame) as Hplain.
  pose proof (fun name method url body =>
                lookupTrace_addressed method url body
                  (directorListRequest name) Hsame) as Hdirectors.
  pose proof (fun director address port method url body =>
                lookupTrace_addressed method url body
                  (backendListRequest director address port) Hsame)
    as Hbackends.
  pose proof (fun method url body =>
                lookupTrace_addressed method url body deleteRequest Hsame)
    as Hdelete.
  destruct call as [name|name|backend director|id|name|director address port
                   |director address port]; simpl in Htraffic.
  - subst. destruct (Hdirectors name "GET" (host c +:+ apiDirectorPath) None)
      as [->|(request & -> & Hr)];
      [by exists 0%nat; rows | by exists 1%nat; rows].
  - subst. destruct (Hdirectors name "GET" (host c +:+ apiDirectorPath) None)
      as [->|(request & -> & Hr)];
      [by exists 0%nat; rows | by exists 1%nat; rows].
  - destruct (Hplain "POST" (host c +:+ apiBackendPath) (Some backend))
      as [Hfirst|(first & Hfirst & Hr1)];
      destruct Htraffic as [->|(address & port & [built Hbuilt] & ->)];
      rewrite Hfirst.
    + exists 0%nat. rows.
    + rewrite Hbuilt in Hfirst. discriminate Hfirst.
    + exists 1%nat. rows.
    + destruct (Hbackends director address port "GET"
                  (host c +:+ apiBackendPath) None)
        as [->|(second & -> & Hr2)];
        [exists 1%nat | exists 2%nat]; rows.
  - subst.
    destruct (Hdelete "DELETE"
                (host c +:+ apiBackendPath +:+ pretty id +:+ "/") None)
      as [->|(request & -> & Hr)];
      [by exists 0%nat; rows | by exists 1%nat; rows].
  - subst. destruct (Hplain "GET" (host c +:+ apiDcPath) None)
      as [->|(request & -> & Hr)];
      [by exists 0%nat; rows | by exists 1%nat; rows].
  - subst.
    destruct (Hbackends director address port "GET"
                (host c +:+ apiBackendPath) None)
      as [->|(request & -> & Hr)];
      [by exists 0%nat; rows | by exists 1%nat; rows].
  - destruct (Hdirectors director "GET" (host c +:+ apiDirectorPath) None)
      as [Hfirst|(first & Hfirst & Hr1)];
      destruct Htraffic as [->|(found & [built Hbuilt] & ->)];
      rewrite Hfirst.
    + exists 0%nat. rows.
    + rewrite Hbuilt in Hfirst. discriminate Hfirst.
    + exists 1%nat. rows.
    + destruct (Hbackends found address port "GET"
                  (host c +:+ apiBackendPath) None)
        as [->|(second & -> & Hr2)];
        [exists 1%nat | exists 2%nat]; rows.
Qed.


(** *** Filters, deletion, creation *)

(** X11: when [newRequest] builds the request, [FindBackend] sends one
    request, which carries the address, the identifier of the director in
    decimal and the port in decimal as the query parameters [address],
    [director] and [port]; and [FindDirector] sends one request, which
    carries the name as the parameter [name]. *)
Theorem lookups_send_their_filters (net : Net Server) :
  (forall director address port request,
     newRequest "GET" (host c +:+ apiBackendPath) None = inl request ->
     exists listing,
       sent (snd (FindBackend director address port net))
         = (sent net ++ [listing])%list
       /\ Values.carries (Query (URL listing)) "address" address
       /\ Values.carries (Query (URL listing)) "director"
            (pretty (Director.ID director))
       /\ Values.carries (Query (URL listing)) "port" (pretty port))
  /\ (forall name request,
        newRequest "GET" (host c +:+ apiDirectorPath) None = inl request ->
        exists listing,
          sent (snd (FindDirector name net)) = (sent net ++ [listing])%list
          /\ Values.carries (Query (URL listing)) "name" name).
Proof.
  split.
  - intros director address port request Hnew.
    destruct (FindBackend_run director address port net)
      as (result & net' & -> & Hsent).
    rewrite Hnew in Hsent. eexists. split; [exact Hsent|].
    unfold backendListRequest, Query, Encode. simpl.
    split; [|split].
    + do 2 apply carries_Add. apply carries_Add_same.
    + apply carries_Add, carries_Add_same.
    + apply carries_Add_same.
  - intros name request Hnew.
    destruct (FindDirector_run name net) as (result & net' & -> & Hsent & _).
    rewrite Hnew in Hsent. eexists. split; [exact Hsent|].
    apply carries_Add_same.
Qed.

(** X12: when the server answers the DELETE request, [DeleteBackend]
    returns no error exactly when the status is in 200..299 or is 404. *)
Theorem DeleteBackend_succeeds_iff (id : Z) (net : Net Server)
  (request : Request) (response : Response) (remote' : Server) :
  newRequest "DELETE" (host c +:+ apiBackendPath +:+ pretty id +:+ "/") None
    = inl request ->
  serve (deleteRequest request) (remote net) = (Answered response, remote') ->
  DeleteBackend id net
    = (Returned None, told net remote' (deleteRequest request))
  <-> is2xx (StatusCode response) \/ StatusCode response = StatusNotFound.
Proof.
  intros Hnew Hserve. unfold vaas.DeleteBackend. rewrite Hnew.
  fold (deleteRequest request). unfold bind.
  rewrite (do_Answered serve url_String _ _ _ _ Hserve).
  destruct (StatusCode response =? StatusNotFound)%Z eqn:Hfound.
  - apply Z.eqb_eq in Hfound. split; [by right | done].
  - apply Z.eqb_neq in Hfound.
    destruct ((StatusCode response <? 200)%Z || (StatusCode response >? 299)%Z)
      eqn:Hrange.
    + apply outside_2xx in Hrange. split; [done | by intros [?|?]].
    + apply inside_2xx in Hrange. split; [by left | done].
Qed.

(** X13: when the transport fails on the DELETE request, [DeleteBackend]
    returns the error of the transport as it is; unless a response with
    status 404 came along with the error, which makes it return no
    error. *)
Theorem DeleteBackend_transport_failure (id : Z) (net : Net Server)
  (request : Request) (response : option Response) (err : error)
  (remote' : Server) :
  newRequest "DELETE" (host c +:+ apiBackendPath +:+ pretty id +:+ "/") None
    = inl request ->
  serve (deleteRequest request) (remote net) = (Failed response err, remote') ->
  DeleteBackend id net =
    (Returned
       (if decide (StatusCode <$> response = Some StatusNotFound) then None
        else Some err),
     told net remote' (deleteRequest request)).
Proof.
  intros Hnew Hserve. unfold vaas.DeleteBackend. rewrite Hnew.
  fold (deleteRequest request). unfold bind.
  rewrite (do_Failed serve url_String _ _ _ _ _ Hserve).
  destruct response as [response|]; simpl; [|done].
  destruct (StatusCode response =? StatusNotFound)%Z eqn:Hfound.
  - apply Z.eqb_eq in Hfound. rewrite Hfound. by rewrite decide_True.
  - apply Z.eqb_neq in Hfound. rewrite decide_False; [done|]. congruence.
Qed.

(** X14: whatever made the create request fail (the transport, a status
    outside 2xx, the read of the body or its decoding), when the lookup
    that follows finds a backend, [AddBackend] returns the resource
    locator of that backend and the error of the create request is
    lost. *)
Theorem AddBackend_masks_any_failure (backend : Backend.t)
  (director : Director.t) (net net1 net2 : Net Server) (request : Request)
  (response : option Response) (err : error) (backend1 found : Backend.t) :
  newRequest "POST" (host c +:+ apiBackendPath) (Some backend) = inl request ->
  doRequest request (Some backend) net =
    (Returned (response, Some err, Some backend1), net1) ->
  FindBackend director (Backend.Address backend1) (Backend.Port backend1) net1
    = (Returned (inl found), net2) ->
  AddBackend backend director net =
    (Returned (backend1, inl (Backend.ResourceURI found)), net2).
Proof.
  intros Hnew Hcreate Hfind. unfold vaas.AddBackend.
  rewrite Hnew. unfold bind at 1. rewrite Hcreate. simpl.
  unfold bind. by rewrite Hfind.
Qed.

(** X15: when the create request is answered with a 2xx status and a body
    that the decoder gives up on, [AddBackend] takes the create for
    failed: it looks the backend up with the address and the port that
    the decoder has left in the caller's [Backend], and the caller's
    [Backend] stays as the decoder left it. *)
Theorem AddBackend_undecodable_answer (backend : Backend.t)
  (director : Director.t) (net net' : Net Server) (request : Request)
  (response : Response) (remote' : Server) (rawResponse : string)
  (backend1 : Backend.t) (err : error) (found : Backend.t + error) :
  newRequest "POST" (host c +:+ apiBackendPath) (Some backend) = inl request ->
  serve request (remote net) = (Answered response, remote') ->
  is2xx (StatusCode response) ->
  RespBody response = Readable rawResponse ->
  json_Unmarshal rawResponse backend = (backend1, Some err) ->
  FindBackend director (Backend.Address backend1) (Backend.Port backend1)
    (told net remote' request) = (Returned found, net') ->
  AddBackend backend director net =
    (Returned
       (backend1,
        match found with
        | inl existing => inl (Backend.ResourceURI existing)
        | inr _ => inr err
        end),
     net').
Proof.
  intros Hnew Hserve H2xx Hbody Hjson Hfind. unfold vaas.AddBackend.
  rewrite Hnew. unfold bind at 1.
  rewrite (doRequest_decoded serve url_String _ _ _ _ _ _ Hserve H2xx Hbody).
  rewrite Hjson. simpl. unfold bind. rewrite Hfind. by destruct found.
Qed.

(** X16: when the create request succeeds and the response has no
    [Location] header, [AddBackend] returns the empty resource locator,
    and no error. *)
Theorem AddBackend_without_Location (backend : Backend.t)
  (director : Director.t) (net : Net Server) (request : Request)
  (response : Response) (remote' : Server) (rawResponse : string)
  (decoded : Backend.t) :
  newRequest "POST" (host c +:+ apiBackendPath) (Some backend) = inl request ->
  serve request (remote net) = (Answered response, remote') ->
  is2xx (StatusCode response) ->
  RespBody response = Readable rawResponse ->
  json_Unmarshal rawResponse backend = (decoded, None) ->
  Header response !! "Location" = None ->
  AddBackend backend director net =
    (Returned (decoded, inl ""), told net remote' request).
Proof.
  intros Hnew Hserve H2xx Hbody Hjson Hheader. unfold vaas.AddBackend.
  rewrite Hnew. unfold bind.
  rewrite (doRequest_decoded serve url_String _ _ _ _ _ _ Hserve H2xx Hbody).
  rewrite Hjson. simpl. unfold Header.Get. by rewrite Hheader.
Qed.

(** What [doRequest] leaves in its target: the target it was given, or
    what the decoder made of the readable body of a 2xx answer. *)
Lemma doRequest_frame {T : Type} {unmarshal : Unmarshal T}
  (request : Request) (target target' : T) (net net' : Net Server)
  (response : option Response) (err : option error) :
  doRequest request (Some target) net
    = (Returned (response, err, Some target'), net') ->
  (target' = target /\ is_Some err)
  \/ exists answer rawResponse,
       serve request (remote net) = (Answered answer, remote net')
       /\ is2xx (StatusCode answer)
       /\ RespBody answer = Readable rawResponse
       /\ json_Unmarshal rawResponse target = (target', err).
Proof.
  unfold vaas.doRequest, bind.
  destruct (serve request (remote net)) as [[answer|answer failure] remote']
    eqn:Hserve.
  - rewrite (do_Answered serve url_String _ _ _ _ Hserve).
    destruct ((StatusCode answer <? 200)%Z || (StatusCode answer >? 299)%Z)
      eqn:Hrange; simpl.
    + intros [= <- <- <- <-]. left. by split; [|eexists].
    + apply inside_2xx in Hrange.
      destruct (RespBody answer) as [rawResponse|readErr] eqn:Hbody; simpl.
      * destruct (json_Unmarshal rawResponse target) as [decoded decodeErr]
          eqn:Hjson.
        intros [= <- <- <- <-]. right. by exists answer, rawResponse.
      * intros [= <- <- <- <-]. left. by split; [|eexists].
  - rewrite (do_Failed serve url_String _ _ _ _ _ Hserve).
    intros [= <- <- <- <-]. left. by split; [|eexists].
Qed.

(** X17: [AddBackend] changes the caller's [Backend] only through the
    decoder: when the call is over the [Backend] is as it was passed in,
    unless the create request was answered with a 2xx status and a
    readable body, and then it is what the decoder made of that body. *)
Theorem AddBackend_changes_backend_by_decoding (backend backend' : Backend.t)
  (director : Director.t) (net net' : Net Server) (result : string + error) :
  AddBackend backend director net = (Returned (backend', result), net') ->
  backend' = backend
  \/ exists request answer remote' rawResponse,
       newRequest "POST" (host c +:+ apiBackendPath) (Some backend)
         = inl request
       /\ serve request (remote net) = (Answered answer, remote')
       /\ is2xx (StatusCode answer)
       /\ RespBody answer = Readable rawResponse
       /\ fst (json_Unmarshal rawResponse backend) = backend'.
Proof.
  unfold vaas.AddBackend.
  destruct (newRequest "POST" (host c +:+ apiBackendPath) (Some backend))
    as [request|err] eqn:Hnew; [|intros [= <- _ _]; by left].
  unfold bind at 1.
  destruct (doRequest_sent serve url_String request backend net)
    as (response & err & backend1 & remote' & Hrun & Hresponse).
  rewrite Hrun. simpl. intros Hadd.
  assert (backend' = backend1) as ->.
  { destruct err as [err|].
    - unfold bind in Hadd.
      destruct (FindBackend_run director (Backend.Address backend1)
                  (Backend.Port backend1)
                  (mkNet remote' (sent net ++ [request])%list))
        as (found & net2 & Hfind & _).
      rewrite Hfind in Hadd. destruct found; by injection Hadd.
    - destruct (Hresponse eq_refl) as [answer ->]. by injection Hadd. }
  destruct (doRequest_frame _ _ _ _ _ _ _ Hrun)
    as [[-> _]|(answer & rawResponse & Hserve & H2xx & Hbody & Hjson)];
    [by left | right].
  exists request, answer, remote', rawResponse.
  by rewrite Hjson.
Qed.

(** X18: [FindBackendID] reports a failed lookup of the director with
    the error of that lookup behind the words "cannot determine director
    ID", and it reports a failed lookup of the backend as "backend not
    found" whatever the error of that lookup, a failure of the transport
    or of the API included. *)
Theorem FindBackendID_failures (director address : string) (port : Z)
  (net : Net Server) :
  (forall err net1,
     FindDirector director net = (Returned (inr err), net1) ->
     FindBackendID director address port net =
       (Returned (inr ("cannot determine director ID: " +:+ err)), net1))
  /\ (forall directorFound net1 err net2,
        FindDirector director net = (Returned (inl directorFound), net1) ->
        FindBackend directorFound address port net1
          = (Returned (inr err), net2) ->
        FindBackendID director address port net =
          (Returned (inr "backend not found"), net2)).
Proof.
  unfold vaas.FindBackendID, bind. split.
  - by intros err net1 ->.
  - by intros directorFound net1 err net2 -> ->.
Qed.

(** X19: [newRequest] keeps the query parameters the URL has of its own
    and appends the credentials after them: the values of [username] are
    those of the URL followed by the user name of the client, likewise
    for [api_key], and every other parameter is as in the URL. *)
Theorem newRequest_keeps_url_parameters (method url : string)
  (body : option Backend.t) (request : Request) (u : Url) :
  url_Parse url = inl u ->
  newRequest method url body = inl request ->
  Query (URL request) !! "username"
    = Some (default [] (Query u !! "username") ++ [username c])%list
  /\ Query (URL request) !! "api_key"
       = Some (default [] (Query u !! "api_key") ++ [apiKey c])%list
  /\ forall key, key <> "username" -> key <> "api_key" ->
       Query (URL request) !! key = Query u !! key.
Proof.
  intros Hparse Hnew.
  apply newRequest_inv in Hnew as (jsonBody & u' & _ & Hparse' & ->).
  rewrite Hparse in Hparse'. injection Hparse' as <-.
  unfold Query, Values.Add. simpl. split; [|split].
  - by rewrite lookup_insert_ne, lookup_insert_eq.
  - by rewrite lookup_insert_eq, lookup_insert_ne.
  - intros key Huser Hkey. by rewrite !lookup_insert_ne.
Qed.

(** X20: with a nil target, [doRequest] discards the body of a 2xx
    answer: it reports no error whatever the body reads, and leaves the
    decoder out. *)
Theorem doRequest_nil_target_discards_body {T : Type}
  {unmarshal : Unmarshal T} (request : Request) (net : Net Server)
  (response : Response) (remote' : Server) (rawResponse : string) :
  serve request (remote net) = (Answered response, remote') ->
  is2xx (StatusCode response) ->
  RespBody response = Readable rawResponse ->
  @vaas.doRequest Server serve url_String T unmarshal request None net =
    (Returned (Some response, None, None), told net remote' request).
Proof.
  intros Hserve H2xx Hbody. unfold vaas.doRequest, bind.
  rewrite (do_Answered serve url_String _ _ _ _ Hserve).
  apply inside_2xx in H2xx. rewrite H2xx. simpl. by rewrite Hbody.
Qed.

(** X21: when the server answers a listing with a status outside 2xx,
    [FindDirector] and [GetDC] return the API error that [do] made of the
    answer as it is, and [FindBackend] returns it behind the words
    "backend list fetch failed". *)
Theorem lookups_report_api_error (net : Net Server)
  (response : Response) (remote' : Server) :
  ~ is2xx (StatusCode response) ->
  (forall name request,
     newRequest "GET" (host c +:+ apiDirectorPath) None = inl request ->
     serve (directorListRequest name request) (remote net)
       = (Answered response, remote') ->
     FindDirector name net =
       (Returned
          (inr (apiError (directorListRequest name request) response)),
        told net remote' (directorListRequest name request)))
  /\ (forall name request,
        newRequest "GET" (host c +:+ apiDcPath) None = inl request ->
        serve request (remote net) = (Answered response, remote') ->
        GetDC name net =
          (Returned (inr (apiError request response)),
           told net remote' request))
  /\ (forall director address port request,
        newRequest "GET" (host c +:+ apiBackendPath) None = inl request ->
        serve (backendListRequest director address port request) (remote net)
          = (Answered response, remote') ->
        FindBackend director address port net =
          (Returned
             (inr ("backend list fetch failed: "
                   +:+ apiError
                         (backendListRequest director address port request)
                         response)),
           told net remote'
             (backendListRequest director address port request))).
Proof.
  intros Hout. split; [|split].
  - intros name request Hnew Hserve. unfold vaas.FindDirector. rewrite Hnew.
    fold (directorListRequest name request). unfold bind.
    by rewrite (doRequest_refused serve url_String _ _ _ _ _ Hserve Hout).
  - intros name request Hnew Hserve. unfold vaas.GetDC. rewrite Hnew.
    unfold bind.
    by rewrite (doRequest_refused serve url_String _ _ _ _ _ Hserve Hout).
  - intros director address port request Hnew Hserve.
    unfold vaas.FindBackend.
    rewrite Hnew. fold (backendListRequest director address port request).
    unfold bind.
    by rewrite (doRequest_refused serve url_String _ _ _ _ _ Hserve Hout).
Qed.

End Coverage.

(** X22: a client made by [NewClient hostname username apiKey] sends
    every request of every call to a URL whose text starts with
    [hostname], with [username] in the query parameter [username] and
    [apiKey] in the query parameter [api_key]. *)
Theorem NewClient_wires_configuration {Server : Type}
  (serve : Request -> Server -> RoundTrip * Server)
  (url_Parse : string -> Url + error) (url_String : Url -> string)
  (json_Marshal : option Backend.t -> string + error)
  {unmarshalBackend : Unmarshal Backend.t}
  {unmarshalBackendList : Unmarshal BackendList.t}
  {unmarshalDCList : Unmarshal DCList.t}
  {unmarshalDirectorList : Unmarshal DirectorList.t}
  (hostname user key : string) (call : Call) (server : Server) :
  Forall (fun request =>
            (exists path u,
               url_Parse (hostname +:+ path) = inl u
               /\ Rest (URL request) = Rest u)
            /\ Values.carries (Query (URL request)) "username" user
            /\ Values.carries (Query (URL request)) "api_key" key)
    (sent (after serve url_Parse url_String json_Marshal
             (NewClient hostname user key) call (mkNet server []))).
Proof.
  destruct (after_traffic serve url_Parse url_String json_Marshal
              (NewClient hostname user key) call (mkNet server []))
    as (requests & -> & Htraffic).
  simpl. revert Htraffic.
  apply (traffic_Forall url_Parse json_Marshal (NewClient hostname user key)).
  - intros method path body request Hnew. split.
    + apply newRequest_inv in Hnew as (jsonBody & u & _ & Hparse & ->).
      by exists path, u.
    + by apply newRequest_authenticated in Hnew.
  - intros name request [Hurl Hauth]. split; [exact Hurl|].
    by apply (directorListRequest_authenticated
                (NewClient hostname user key)).
  - intros director address port request [Hurl Hauth]. split; [exact Hurl|].
    by apply (backendListRequest_authenticated
                (NewClient hostname user key)).
  - intros id request _ [Hurl Hauth]. split; [exact Hurl|].
    by apply (deleteRequest_authenticated (NewClient hostname user key)).
Qed.

(** ** The rest of the client at work on the scripted remote *)

Import Scenario.

Lemma GetDC_matches_symbol_witness :
  (exists net',
     GetDC replay parse render marshal (unmarshalDCList := decodeDCs)
       client "WAW" (start [ok "dcs"])
     = (Returned (inl warsaw), net'))
  /\ (exists net',
        GetDC replay parse render marshal (unmarshalDCList := decodeDCs)
          client "XXX" (start [ok "dcs"])
        = (Returned (inr "no DC with name XXX found"), net')).
Proof.
  split; eexists.
  - edestruct (GetDC_matches_symbol replay parse render marshal
                 (unmarshalDCList := decodeDCs) client "WAW"
                 (start [ok "dcs"])) as [Hfound _];
      [ vm_compute; reflexivity | vm_compute; reflexivity
      | unfold is2xx; simpl; lia | reflexivity | vm_compute; reflexivity |].
    apply Hfound. exists [decoy; krakow], [].
    split; [reflexivity|]. split; [|reflexivity].
    repeat constructor; discriminate.
  - edestruct (GetDC_matches_symbol replay parse render marshal
                 (unmarshalDCList := decodeDCs) client "XXX"
                 (start [ok "dcs"])) as [_ Hnone];
      [ vm_compute; reflexivity | vm_compute; reflexivity
      | unfold is2xx; simpl; lia | reflexivity | vm_compute; reflexivity |].
    etrans; [|reflexivity].
    apply Hnone. repeat constructor; discriminate.
Defined.

Lemma FindDirector_finds_present_witness :
  exists net',
    FindDirector replay parse render marshal
      (unmarshalDirectorList := decodeDirectorList) client "varnish"
      (start [ok "directors canary varnish"])
    = (Returned (inl varnish), net').
Proof.
  eexists.
  eapply (FindDirector_finds_present replay parse render marshal
            (unmarshalDirectorList := decodeDirectorList) client "varnish"
            (start [ok "directors canary varnish"])
            _ _ _ _ directorPage [varnishCanary] [] varnish).
  - vm_compute. reflexivity.
  - vm_compute. reflexivity.
  - unfold is2xx. simpl. lia.
  - reflexivity.
  - vm_compute. reflexivity.
  - reflexivity.
  - repeat constructor. discriminate.
  - reflexivity.
Defined.

Lemma FindBackend_first_match_witness :
  exists net',
    FindBackend replay parse render marshal
      (unmarshalBackendList := decodeBackends) client varnish
      "10.0.0.5" 8080 (start [ok "backends 9090 8080 twin"])
    = (Returned (inl web8080), net').
Proof.
  eexists.
  eapply (FindBackend_first_match replay parse render marshal
            (unmarshalBackendList := decodeBackends) client varnish
            "10.0.0.5" 8080 (start [ok "backends 9090 8080 twin"])
            _ _ _ _ _ [web9090] [twin] web8080).
  - vm_compute. reflexivity.
  - vm_compute. reflexivity.
  - unfold is2xx. simpl. lia.
  - reflexivity.
  - vm_compute. reflexivity.
  - reflexivity.
  - repeat constructor. intros [_ Hport]. discriminate Hport.
  - reflexivity.
  - reflexivity.
Defined.

Lemma FindDirectorID_resolves_witness :
  (exists net',
     FindDirectorID replay parse render marshal
       (unmarshalDirectorList := decodeDirectorList) client "varnish"
       (start [ok "directors canary varnish"])
     = (Returned (inl 7), net'))
  /\ (exists net',
        FindDirectorID replay parse render marshal
          (unmarshalDirectorList := decodeDirectorList) client "varnish"
          (start [ok "directors canary"])
        = (Returned
             (inr "cannot determine director ID: no Director with name varnish found"),
           net')).
Proof.
  split; eexists.
  - edestruct (FindDirectorID_resolves replay parse render marshal
                 (unmarshalDirectorList := decodeDirectorList) client
                 "varnish" (start [ok "directors canary varnish"]))
      as [Hfound _];
      [ vm_compute; reflexivity | vm_compute; reflexivity
      | unfold is2xx; simpl; lia | reflexivity | vm_compute; reflexivity |].
    apply (Hfound [varnishCanary] [] varnish); [reflexivity| |reflexivity].
    repeat constructor. discriminate.
  - edestruct (FindDirectorID_resolves replay parse render marshal
                 (unmarshalDirectorList := decodeDirectorList) client
                 "varnish" (start [ok "directors canary"]))
      as [_ Hnone];
      [ vm_compute; reflexivity | vm_compute; reflexivity
      | unfold is2xx; simpl; lia | reflexivity | vm_compute; reflexivity |].
    etrans; [|reflexivity].
    apply Hnone. repeat constructor. discriminate.
Defined.

Lemma FindBackendID_panics_only_without_id_witness :
  exists reason net',
    reason = nilDereference
    /\ exists directorFound net1 backend,
         FindDirector replay parse render marshal
           (unmarshalDirectorList := decodeDirectorList) client "varnish"
           (start [ok "directors canary varnish"; ok "backends anonymous"])
         = (Returned (inl directorFound), net1)
         /\ FindBackend replay parse render marshal
              (unmarshalBackendList := decodeBackendList) client
              directorFound "10.0.0.5" 8080 net1
            = (Returned (inl backend), net')
         /\ Backend.ID backend = None.
Proof.
  eexists _, _.
  eapply (FindBackendID_panics_only_without_id replay parse render marshal
            (unmarshalBackendList := decodeBackendList)
            (unmarshalDirectorList := decodeDirectorList) client
            "varnish" "10.0.0.5" 8080
            (start [ok "directors canary varnish"; ok "backends anonymous"])).
  vm_compute. reflexivity.
Defined.


Lemma lookups_send_their_filters_witness :
  exists listing,
    sent (snd (FindBackend replay parse render marshal
                 (unmarshalBackendList := decodeBackendList) client varnish
                 "10.0.0.5" 8080 (start [ok "backends 9090 8080"])))
      = [listing]
    /\ Values.carries (Query (URL listing)) "address" "10.0.0.5"
    /\ Values.carries (Query (URL listing)) "director" "7"
    /\ Values.carries (Query (URL listing)) "port" "8080".
Proof.
  eapply (proj1 (lookups_send_their_filters replay parse render marshal
                   (unmarshalBackendList := decodeBackendList)
                   (unmarshalDirectorList := decodeDirectorList) client
                   (start [ok "backends 9090 8080"]))
            varnish "10.0.0.5" 8080).
  vm_compute. reflexivity.
Defined.

Lemma DeleteBackend_succeeds_iff_witness :
  exists net',
    DeleteBackend replay parse render marshal client 42
      (start [refused 204 ""]) = (Returned None, net').
Proof.
  eexists.
  eapply (DeleteBackend_succeeds_iff replay parse render marshal client 42
            (start [refused 204 ""])).
  - vm_compute. reflexivity.
  - vm_compute. reflexivity.
  - left. unfold is2xx. simpl. lia.
Defined.

Lemma DeleteBackend_transport_failure_witness :
  (exists net',
     DeleteBackend replay parse render marshal client 42
       (start [Failed None "connection reset by peer"])
     = (Returned (Some "connection reset by peer"), net'))
  /\ (exists net',
        DeleteBackend replay parse render marshal client 42
          (start [Failed (Some (mkResponse 404 ∅ (Readable "gone")))
                    "stopped after 10 redirects"])
        = (Returned None, net')).
Proof.
  split; eexists.
  - etrans.
    { eapply (DeleteBackend_transport_failure replay parse render marshal
                client 42 (start [Failed None "connection reset by peer"])).
      - vm_compute. reflexivity.
      - vm_compute. reflexivity. }
    reflexivity.
  - etrans.
    { eapply (DeleteBackend_transport_failure replay parse render marshal
                client 42
                (start [Failed (Some (mkResponse 404 ∅ (Readable "gone")))
                          "stopped after 10 redirects"])).
      - vm_compute. reflexivity.
      - vm_compute. reflexivity. }
    reflexivity.
Defined.

Lemma AddBackend_masks_any_failure_witness :
  exists net',
    AddBackend replay parse render marshal
      (unmarshalBackend := decodeBackend)
      (unmarshalBackendList := decodeBackendList) client fresh varnish
      (start [Failed None "connection reset by peer";
              ok "backends 9090 8080"])
    = (Returned (fresh, inl "/api/v0.1/backend/42/"), net').
Proof.
  eexists. etrans.
  { eapply (AddBackend_masks_any_failure replay parse render marshal
              (unmarshalBackend := decodeBackend)
              (unmarshalBackendList := decodeBackendList) client
              fresh varnish).
    - vm_compute. reflexivity.
    - vm_compute. reflexivity.
    - vm_compute. reflexivity. }
  vm_compute. reflexivity.
Defined.

Lemma AddBackend_undecodable_answer_witness :
  exists net',
    AddBackend replay parse render marshal
      (unmarshalBackend := decodeHalf)
      (unmarshalBackendList := decodeBackendList) client fresh varnish
      (start [created "/api/v0.1/backend/50/" "port 9090 and then";
              ok "backends 9090"])
    = (Returned (moved fresh, inl "/api/v0.1/backend/43/"), net').
Proof.
  eexists. etrans.
  { eapply (AddBackend_undecodable_answer replay parse render marshal
              (unmarshalBackend := decodeHalf)
              (unmarshalBackendList := decodeBackendList) client
              fresh varnish).
    - vm_compute. reflexivity.
    - vm_compute. reflexivity.
    - unfold is2xx. simpl. lia.
    - reflexivity.
    - vm_compute. reflexivity.
    - vm_compute. reflexivity. }
  vm_compute. reflexivity.
Defined.

Lemma AddBackend_without_Location_witness :
  exists net',
    AddBackend replay parse render marshal
      (unmarshalBackend := decodeBackend)
      (unmarshalBackendList := decodeBackendList) client fresh varnish
      (start [createdNowhere "created 42"])
    = (Returned (web8080, inl ""), net').
Proof.
  eexists. etrans.
  { eapply (AddBackend_without_Location replay parse render marshal
              (unmarshalBackend := decodeBackend)
              (unmarshalBackendList := decodeBackendList) client
              fresh varnish (start [createdNowhere "created 42"])).
    - vm_compute. reflexivity.
    - vm_compute. reflexivity.
    - unfold is2xx. simpl. lia.
    - reflexivity.
    - vm_compute. reflexivity.
    - reflexivity. }
  vm_compute. reflexivity.
Defined.

Lemma AddBackend_changes_backend_by_decoding_witness :
  web8080 = fresh
  \/ exists request answer remote' rawResponse,
       newRequest parse marshal client "POST"
         (host client +:+ apiBackendPath) (Some fresh) = inl request
       /\ replay request
            (remote (start [created "/api/v0.1/backend/42/" "created 42"]))
          = (Answered answer, remote')
       /\ is2xx (StatusCode answer)
       /\ RespBody answer = Readable rawResponse
       /\ fst (decodeBackend rawResponse fresh) = web8080.
Proof.
  eapply (AddBackend_changes_backend_by_decoding replay parse render marshal
            (unmarshalBackend := decodeBackend)
            (unmarshalBackendList := decodeBackendList) client
            fresh web8080 varnish
            (start [created "/api/v0.1/backend/42/" "created 42"])).
  vm_compute. reflexivity.
Defined.

Lemma FindBackendID_failures_witness :
  exists net',
    FindBackendID replay parse render marshal
      (unmarshalBackendList := decodeBackendList)
      (unmarshalDirectorList := decodeDirectorList) client
      "varnish" "10.0.0.5" 8080
      (start [ok "directors canary varnish"; refused 500 "boom"])
    = (Returned (inr "backend not found"), net').
Proof.
  eexists.
  eapply (proj2 (FindBackendID_failures replay parse render marshal
                   (unmarshalBackendList := decodeBackendList)
                   (unmarshalDirectorList := decodeDirectorList) client
                   "varnish" "10.0.0.5" 8080
                   (start [ok "directors canary varnish";
                           refused 500 "boom"]))).
  - vm_compute. reflexivity.
  - vm_compute. reflexivity.
Defined.

Lemma newRequest_keeps_url_parameters_witness :
  exists request,
    newRequest parseWithUser marshal client "GET"
      "http://vaas.local/api/v0.1/dc/?username=intruder" None = inl request
    /\ Query (URL request) !! "username" = Some ["intruder"; "hook"]
    /\ Query (URL request) !! "api_key" = Some ["s3cret"].
Proof.
  eexists. split; [vm_compute; reflexivity|].
  edestruct (newRequest_keeps_url_parameters parseWithUser marshal client
               "GET" "http://vaas.local/api/v0.1/dc/?username=intruder" None)
    as (Huser & Hkey & _); [reflexivity | vm_compute; reflexivity |].
  split; [exact Huser | exact Hkey].
Defined.

Lemma doRequest_nil_target_discards_body_witness :
  exists net',
    doRequest replay render (unmarshal := decodeBackend) probe None
      (start [ok "no JSON at all"])
    = (Returned
         (Some (mkResponse 200 ∅ (Readable "no JSON at all")), None, None),
       net').
Proof.
  eexists.
  eapply (doRequest_nil_target_discards_body replay render
            (unmarshal := decodeBackend) probe
            (start [ok "no JSON at all"])).
  - reflexivity.
  - unfold is2xx. simpl. lia.
  - reflexivity.
Defined.

Lemma lookups_report_api_error_witness :
  (exists net',
     GetDC replay parse render marshal (unmarshalDCList := decodeDCs)
       client "WAW" (start [refused 503 "down"])
     = (Returned
          (inr "VaaS API error at http://vaas.local/api/v0.1/dc/?api_key=s3cret&username=hook (HTTP 503): down"),
        net'))
  /\ (exists net',
        FindBackend replay parse render marshal
          (unmarshalBackendList := decodeBackendList) client varnish
          "10.0.0.5" 8080 (start [refused 503 "down"])
        = (Returned
             (inr "backend list fetch failed: VaaS API error at http://vaas.local/api/v0.1/backend/?address=10.0.0.5&api_key=s3cret&director=7&port=8080&username=hook (HTTP 503): down"),
           net')).
Proof.
  split; eexists.
  - edestruct (lookups_report_api_error replay parse render marshal
                 (unmarshalBackendList := decodeBackendList)
                 (unmarshalDCList := decodeDCs)
                 (unmarshalDirectorList := decodeDirectorList) client
                 (start [refused 503 "down"])
                 (mkResponse 503 ∅ (Readable "down")) [])
      as (_ & Hdc & _); [unfold is2xx; simpl; lia|].
    etrans.
    { eapply (Hdc "WAW"); vm_compute; reflexivity. }
    vm_compute. reflexivity.
  - edestruct (lookups_report_api_error replay parse render marshal
                 (unmarshalBackendList := decodeBackendList)
                 (unmarshalDCList := decodeDCs)
                 (unmarshalDirectorList := decodeDirectorList) client
                 (start [refused 503 "down"])
                 (mkResponse 503 ∅ (Readable "down")) [])
      as (_ & _ & Hbackend); [unfold is2xx; simpl; lia|].
    etrans.
    { eapply (Hbackend varnish "10.0.0.5" 8080); vm_compute; reflexivity. }
    vm_compute. reflexivity.
Defined.
